(** * Great Expectations: the profile-report columns data assistant and the
      Spark datasource reader guess

    A shallow embedding of

    - [SparkDFDatasource.guess_reader_method_from_path]
      (great_expectations/datasource/sparkdf_datasource.py), and
    - [ProfileReportBasedColumnsDataAssistant]
      (contrib/capitalone_dataprofiler_expectations/.../
       profile_report_based_columns_data_assistant.py),

    together with the parts of the rule engine that the specification
    describes and these two files rely on.

    Python values are modelled as follows: [str] as [string], dictionaries
    with string keys as [gmap string _], [None]-able arguments as [option],
    and a call that may raise as a value of [result]. *)

From Stdlib Require Import Ascii.
From stdpp Require Import gmap strings list.

Open Scope string_scope.

(** ** Python values and exceptions *)

(** The literals that occur as dictionary values in the two source files. *)
Inductive value : Type :=
  | VNone
  | VBool (b : bool)
  | VStr (s : string).

Global Instance value_eq_dec : EqDecision value.
Proof. solve_decision. Defined.

(** The exceptions raised by the embedded code. *)
Inductive exn : Type :=
  | BatchKwargsError (message : string) (batch_kwargs : gmap string value)
  | TypeError (message : string)
  | NoDomainsFoundError.

(** The outcome of a call: a returned value or a raised exception. *)
Inductive result (A : Type) : Type :=
  | Return (a : A)
  | Raise (e : exn).
Global Arguments Return {A} a.
Global Arguments Raise {A} e.

Global Instance result_ret : MRet result := λ A a, Return a.

Global Instance result_bind : MBind result := λ A B k m,
  match m with
  | Return a => k a
  | Raise e => Raise e
  end.

(** Python objects as the datasource's dictionaries hold them: [None],
    booleans, integers, strings and dictionaries with string keys. *)
#[local] Set Warnings "-register-all".
Inductive py : Type :=
  | PyNone
  | PyBool (b : bool)
  | PyInt (n : Z)
  | PyStr (s : string)
  | PyDict (d : gmap string py).
#[local] Set Warnings "register-all".

(** The truth value of an object in a condition. *)
Definition truthy (v : py) : bool :=
  match v with
  | PyNone => false
  | PyBool b => b
  | PyInt n => negb (n =? 0)%Z
  | PyStr s => negb (String.eqb s "")
  | PyDict d => negb (bool_decide (size d = 0))
  end.

(** [d.update(other)]: the entries of [other] replace those of [d]. *)
Definition dict_update (d other : gmap string py) : gmap string py := other ∪ d.

(** [str(v)], as an f-string formats a [value]. *)
Definition format_value (v : value) : string :=
  match v with
  | VNone => "None"
  | VBool true => "True"
  | VBool false => "False"
  | VStr s => s
  end.

(** Every exception a call can end with: the exceptions of [exn], and the
    two built-in ones that a failing lookup raises. *)
Inductive exception : Type :=
  | Exn (e : exn)
  | KeyError (key : string)
  | AttributeError (message : string).

Inductive outcome (A : Type) : Type :=
  | Returned (a : A)
  | Raised (e : exception).
Global Arguments Returned {A} a.
Global Arguments Raised {A} e.

Global Instance outcome_ret : MRet outcome := λ A a, Returned a.

Global Instance outcome_bind : MBind outcome := λ A B k m,
  match m with
  | Returned a => k a
  | Raised e => Raised e
  end.

Definition of_result {A : Type} (r : result A) : outcome A :=
  match r with
  | Return a => Returned a
  | Raise e => Raised (Exn e)
  end.

(** The name of an object's class, as error messages show it. *)
Definition type_name (v : py) : string :=
  match v with
  | PyNone => "NoneType"
  | PyBool _ => "bool"
  | PyInt _ => "int"
  | PyStr _ => "str"
  | PyDict _ => "dict"
  end.

(** [d[key]] on a dictionary. *)
Definition getitem {A : Type} (d : gmap string A) (key : string) : outcome A :=
  match d !! key with
  | Some a => Returned a
  | None => Raised (KeyError key)
  end.

(** ** Strings: [str.lower] and [str.endswith] *)

Module Str.

(** [str.lower] on one character: the letters [A]..[Z] are moved to
    [a]..[z], every other character is kept.  Paths are strings of
    8-bit characters here: a Python string is taken by its UTF-8 bytes.
    [str.lower] also changes letters outside ASCII, which this function
    keeps; no byte of such a letter is an ASCII character, so the tests
    for the suffixes ".csv", ".tsv", ".parquet", ".parq" and ".pqt" come
    out the same, while the text of a lower-cased path with such letters
    does not. *)
Definition lower_char (c : ascii) : ascii :=
  let n := N_of_ascii c in
  if ((65 <=? n) && (n <=? 90))%N then ascii_of_N (n + 32) else c.

Fixpoint lower (s : string) : string :=
  match s with
  | EmptyString => EmptyString
  | String c s' => String (lower_char c) (lower s')
  end.

(** [s.endswith(suffix)]: some tail of [s] is [suffix]. *)
Fixpoint endswith (s suffix : string) : bool :=
  if String.eqb s suffix then true
  else match s with
       | EmptyString => false
       | String _ s' => endswith s' suffix
       end.

(** The relation [endswith] decides. *)
Definition ends_with (s suffix : string) : Prop :=
  ∃ front : string, s = front +:+ suffix.

(** The character of [capitals] at the place where [c] is in [smalls];
    [c] itself if it is not there. *)
Fixpoint capital_in (smalls capitals : string) (c : ascii) : ascii :=
  match smalls, capitals with
  | String small smalls', String capital capitals' =>
      if bool_decide (c = small) then capital
      else capital_in smalls' capitals' c
  | _, _ => c
  end.

(** The capital of a small letter, by the alphabet; every other character
    is kept. *)
Definition upper_case (c : ascii) : ascii :=
  capital_in "abcdefghijklmnopqrstuvwxyz" "ABCDEFGHIJKLMNOPQRSTUVWXYZ" c.

(** [spelled tail word]: [tail] is [word], each character written as it is
    in [word] or as its capital. *)
Fixpoint spelled (tail word : string) : bool :=
  match tail, word with
  | EmptyString, EmptyString => true
  | String a tail', String b word' =>
      (bool_decide (a = b) || bool_decide (a = upper_case b))
      && spelled tail' word'
  | _, _ => false
  end.

(** A path ends in [word] in some spelling of small and capital letters. *)
Definition ends_with_spelling (path word : string) : Prop :=
  ∃ front tail : string, path = front +:+ tail ∧ spelled tail word = true.

(** A byte that continues a character of more than one byte in UTF-8. *)
Definition is_continuation (c : ascii) : bool :=
  let n := N_of_ascii c in ((128 <=? n) && (n <? 192))%N.

(** The number of characters of a string given by its UTF-8 bytes:
    [len(s)] in Python. *)
Fixpoint characters (s : string) : nat :=
  match s with
  | EmptyString => 0
  | String c s' => (if is_continuation c then 0 else 1) + characters s'
  end.

End Str.

(** ** [SparkDFDatasource]: guessing the reader method from a path *)

Module SparkDFDatasource.

Definition csv_reader : gmap string value := {[ "reader_method" := VStr "csv" ]}.
Definition parquet_reader : gmap string value :=
  {[ "reader_method" := VStr "parquet" ]}.

(** [guess_reader_method_from_path]: the argument is rebound to its
    lower-case form first, so the error message and the error's payload
    carry the lower-case path. *)
Definition guess_reader_method_from_path (path : string)
  : result (gmap string value) :=
  let path := Str.lower path in
  if Str.endswith path ".csv" || Str.endswith path ".tsv" then
    Return csv_reader
  else if Str.endswith path ".parquet" || Str.endswith path ".parq"
          || Str.endswith path ".pqt" then
    Return parquet_reader
  else
    Raise (BatchKwargsError
             ("Unable to determine reader method from path: " +:+ path)
             {[ "path" := VStr path ]}).

(** The two conditions of the source, on the lower-case path. *)
Definition csv_like (path : string) : Prop :=
  Str.ends_with (Str.lower path) ".csv" ∨ Str.ends_with (Str.lower path) ".tsv".

Definition parquet_like (path : string) : Prop :=
  Str.ends_with (Str.lower path) ".parquet"
  ∨ Str.ends_with (Str.lower path) ".parq"
  ∨ Str.ends_with (Str.lower path) ".pqt".

Definition raises_batch_kwargs_error {A : Type} (m : result A) : Prop :=
  ∃ message batch_kwargs, m = Raise (BatchKwargsError message batch_kwargs).

(** [build_configuration(spark_config=None, persist=True, **kwargs)]. *)
Definition build_configuration (spark_config : option (gmap string py))
    (persist : bool) (kwargs : gmap string py) : gmap string py :=
  let configuration := if truthy (PyDict kwargs) then kwargs else ∅ in
  dict_update configuration
    {[ "spark_config" :=
         PyDict (match spark_config with
                 | Some d => if truthy (PyDict d) then d else ∅
                 | None => ∅
                 end);
       "persist" := PyBool persist ]}.

Section Methods.

(** The method of the base class that [process_batch_parameters] calls
    first; [LegacyDatasource] is declared outside these sources. *)
Variable super_process_batch_parameters : py → py → gmap string py.

(** [process_batch_parameters]: [reader_options] is a dictionary or [None].
    The dictionary under "reader_options" is updated in place in the source;
    here the updated dictionary is stored back. *)
Definition process_batch_parameters (reader_method : py)
    (reader_options : option (gmap string py)) (limit dataset_options : py)
  : outcome (gmap string py) :=
  let batch_kwargs := super_process_batch_parameters limit dataset_options in
  batch_kwargs ←
    match reader_options with
    | Some options =>
        if truthy (PyDict options) then
          let batch_kwargs :=
            if negb (truthy (default PyNone (batch_kwargs !! "reader_options")))
            then <[ "reader_options" := PyDict ∅ ]> batch_kwargs
            else batch_kwargs in
          current ← getitem batch_kwargs "reader_options";
          match current with
          | PyDict d =>
              mret (<[ "reader_options" := PyDict (dict_update d options) ]>
                      batch_kwargs)
          | other =>
              Raised (AttributeError
                        ("'" +:+ type_name other
                           +:+ "' object has no attribute 'update'"))
          end
        else mret batch_kwargs
    | None => mret batch_kwargs
    end;
  let batch_kwargs :=
    match reader_method with
    | PyNone => batch_kwargs
    | _ => <[ "reader_method" := reader_method ]> batch_kwargs
    end in
  mret batch_kwargs.

(** The Spark reader, as far as [_get_reader_fn] uses it.  [getattr] is
    the attribute lookup by name, and [format_load reader f] is the
    expression [reader.format(f).load]; each is [None] where evaluating it
    raises [AttributeError].  The reader method is [None], a boolean or a
    string, and the path is [None] or a string. *)
Variables Reader ReaderFn : Type.
Variable getattr : Reader → string → option ReaderFn.
Variable format_load : Reader → string → option ReaderFn.

(** The body of the [try] block of [_get_reader_fn]. *)
Definition reader_fn_of_method (reader : Reader) (reader_method : value)
  : outcome ReaderFn :=
  match reader_method with
  | VStr name =>
      if bool_decide (Str.lower name ∈ ["delta"; "avro"]) then
        match format_load reader (Str.lower name) with
        | Some fn => mret fn
        | None =>
            Raised (AttributeError
                      "'DataFrameReader' object has no attribute 'format'")
        end
      else
        match getattr reader name with
        | Some fn => mret fn
        | None =>
            Raised (AttributeError
                      ("'DataFrameReader' object has no attribute '" +:+ name
                         +:+ "'"))
        end
  | VNone => Raised (AttributeError "'NoneType' object has no attribute 'lower'")
  | VBool _ => Raised (AttributeError "'bool' object has no attribute 'lower'")
  end.

Definition _get_reader_fn (reader : Reader) (reader_method : value)
    (path : option string) : outcome ReaderFn :=
  if bool_decide (reader_method = VNone) && bool_decide (path = None) then
    Raised (Exn (BatchKwargsError
      "Unable to determine spark reader function without reader_method or path."
      {[ "reader_method" := reader_method ]}))
  else
    reader_method ←
      (if bool_decide (reader_method = VNone) then
         guessed ←
           match path with
           | Some p => of_result (guess_reader_method_from_path p)
           | None =>
               Raised (AttributeError "'NoneType' object has no attribute 'lower'")
           end;
         getitem guessed "reader_method"
       else mret reader_method);
    match reader_fn_of_method reader reader_method with
    | Raised (AttributeError _) =>
        Raised (Exn (BatchKwargsError
          ("Unable to find reader_method " +:+ format_value reader_method
             +:+ " in spark.")
          {[ "reader_method" := reader_method ]}))
    | fn => fn
    end.

End Methods.

End SparkDFDatasource.

(** ** The rule-based profiler's data model

    The classes below are declared in [great_expectations.rule_based_profiler];
    the data assistant only constructs them.  The records of the builders
    and of the Rule keep the keyword arguments of the constructor calls in
    the source; the others follow the data model of the specification. *)

(** [returns m P]: the call [m] returns, and its value satisfies [P]. *)
Definition returns {A : Type} (m : result A) (P : A → Prop) : Prop :=
  ∃ a, m = Return a ∧ P a.

(** An argument of type [Optional[Union[str, dict]]]: absent, a
    fully-qualified parameter name to be resolved later, or a literal
    dictionary. *)
Inductive kwargs_arg : Type :=
  | KwNone
  | KwName (fully_qualified_parameter_name : string)
  | KwDict (d : gmap string value).

(** Modelled from the spec: the semantic types of a column, numeric, text,
    datetime and boolean; their declaration is outside these sources. *)
Inductive SemanticDomainTypes : Type := NUMERIC | TEXT | DATETIME | BOOLEAN.

Global Instance SemanticDomainTypes_eq_dec : EqDecision SemanticDomainTypes.
Proof. solve_decision. Defined.

(** Modelled from the spec: a Domain, declared outside these sources, has a
    [domain_type] tag and [domain_kwargs], a "mapping of addressing keys,
    e.g. column name". *)
Module Domain.
Inductive domain_type : Type := COLUMN | TABLE.

Record t : Type := new {
  type : domain_type;
  domain_kwargs : gmap string value;
}.
End Domain.

Module ColumnDomainBuilder.
Record t : Type := new {
  include_column_names : option (list string);
  exclude_column_names : option (list string);
  include_column_name_suffixes : option (list string);
  exclude_column_name_suffixes : option (list string);
  semantic_type_filter_module_name : option string;
  semantic_type_filter_class_name : option string;
  include_semantic_types : option (list SemanticDomainTypes);
  exclude_semantic_types : option (list SemanticDomainTypes);
  data_context : option unit;
}.

(** Modelled from the spec: one entry of the dataset schema, as
    [list_columns()] reports it, "{name, inferred_type}". *)
Record Column : Type := column {
  column_name : string;
  inferred_type : SemanticDomainTypes;
}.

Definition name_in (names : list string) (c : Column) : bool :=
  bool_decide (column_name c ∈ names).

Definition has_suffix_in (suffixes : list string) (c : Column) : bool :=
  existsb (Str.endswith (column_name c)) suffixes.

Definition type_in (types : list SemanticDomainTypes) (c : Column) : bool :=
  bool_decide (inferred_type c ∈ types).

(** A filter that is [None] keeps every column. *)
Definition including {A : Type} (criterion : option A)
    (test : A → Column → bool) (columns : list Column) : list Column :=
  match criterion with
  | None => columns
  | Some a => List.filter (test a) columns
  end.

Definition excluding {A : Type} (criterion : option A)
    (test : A → Column → bool) (columns : list Column) : list Column :=
  including criterion (λ a c, negb (test a c)) columns.

(** Modelled from the spec: the filter pipeline of [ColumnDomainBuilder]
    is declared outside these sources.  By the spec the filters apply in
    the order "explicit include list (if present, ignore all other filters
    and exclusion lists except explicit excludes applied after), then
    suffix filters, then semantic-type filters", and "excludes take
    precedence over includes". *)
Definition get_effective_columns (self : t) (schema : list Column)
  : list Column :=
  match include_column_names self with
  | Some names =>
      excluding (exclude_column_names self) name_in
        (List.filter (name_in names) schema)
  | None =>
      excluding (exclude_semantic_types self) type_in
        (including (include_semantic_types self) type_in
           (excluding (exclude_column_name_suffixes self) has_suffix_in
              (including (include_column_name_suffixes self) has_suffix_in
                 (excluding (exclude_column_names self) name_in schema))))
  end.

Definition column_domain (c : Column) : Domain.t :=
  {| Domain.type := Domain.COLUMN;
     Domain.domain_kwargs := {[ "column" := VStr (column_name c) ]} |}.

(** Modelled from the spec: [build_domains] yields one column Domain per
    selected column, and [NoDomainsFoundError] when none is selected. *)
Definition build_domains (self : t) (schema : list Column)
  : result (list Domain.t) :=
  match get_effective_columns self schema with
  | [] => Raise NoDomainsFoundError
  | columns => Return (column_domain <$> columns)
  end.
End ColumnDomainBuilder.

(** [DomainBuilder] is the base class; [ColumnDomainBuilder] is the one
    variant these sources construct. *)
Inductive DomainBuilder : Type :=
  | IsColumnDomainBuilder (b : ColumnDomainBuilder.t)
  | OtherDomainBuilder (class_name : string).

(** Modelled from the spec: a Parameter Builder, declared outside these
    sources, has a name and declares a [metric_name], [metric_domain_kwargs]
    and [metric_value_kwargs]. *)
Module ParameterBuilder.
Record t : Type := new {
  name : string;
  metric_name : string;
  metric_domain_kwargs : kwargs_arg;
  metric_value_kwargs : kwargs_arg;
}.
End ParameterBuilder.

(** JSON values as far as a builder's serialization needs them. *)
Inductive json : Type :=
  | JNull
  | JBoolean (b : bool)
  | JString (s : string)
  | JObject (o : gmap string value).

Module ParameterBuilderConfig.
Record t : Type := mk {
  name : string;
  kwargs : gmap string json;
}.

(** Modelled from the spec: the class [ParameterBuilderConfig] is declared
    in [great_expectations.rule_based_profiler.config], outside these
    sources.  By the spec a config is a lightweight re-declaration, name and
    backend metric spec, of a Parameter Builder: the constructor takes the
    keyword argument [name] and keeps every other keyword argument; calling
    it without a [name] is a [TypeError], as for any required argument. *)
Definition new (keywords : gmap string json) : result t :=
  match keywords !! "name" with
  | Some (JString n) => Return (mk n (delete "name" keywords))
  | _ => Raise (TypeError "__init__() missing required argument: 'name'")
  end.
End ParameterBuilderConfig.

Module DefaultExpectationConfigurationBuilder.
Record t : Type := new {
  expectation_type : string;
  validation_parameter_builder_configs : option (list ParameterBuilderConfig.t);
  kwargs : gmap string value;
  meta : gmap string value;
}.
End DefaultExpectationConfigurationBuilder.

Module Rule.
Record t : Type := new {
  name : string;
  variables : gmap string value;
  domain_builder : DomainBuilder;
  parameter_builders : list ParameterBuilder.t;
  expectation_configuration_builders :
    list DefaultExpectationConfigurationBuilder.t;
}.
End Rule.

(** Modelled from the spec: a Configuration, declared outside these sources,
    is a type tag, a mapping of resolved field names to resolved values, and
    an optional meta mapping. *)
Module Configuration.
Record t : Type := new {
  type : string;
  fields : gmap string value;
  meta : gmap string value;
}.

(** Modelled from the spec: equality of Configurations is declared outside
    these sources.  By the spec "two Configurations are equal iff
    (type, fields) are equal, ignoring meta". *)
Definition eqb (a b : t) : bool :=
  bool_decide (type a = type b) && bool_decide (fields a = fields b).
End Configuration.

(** The Configurations a run has accumulated. *)
Module Result.
(** Modelled from the spec: the accumulation of the Orchestrator is
    declared outside these sources.  By the spec it accumulates
    Configurations "with deduplication" keyed by the equality above: a
    Configuration equal to one already present is not added again. *)
Definition add_configuration (configurations : list Configuration.t)
    (c : Configuration.t) : list Configuration.t :=
  if existsb (Configuration.eqb c) configurations then configurations
  else configurations ++ [c].

Definition add_configurations (configurations emitted : list Configuration.t)
  : list Configuration.t :=
  foldl add_configuration configurations emitted.

(** A list in which no Configuration equals an earlier one. *)
Inductive deduplicated : list Configuration.t → Prop :=
  | deduplicated_nil : deduplicated []
  | deduplicated_snoc configurations c :
      deduplicated configurations →
      existsb (Configuration.eqb c) configurations = false →
      deduplicated (configurations ++ [c]).
End Result.

(** ** [ProfileReportBasedColumnsDataAssistant] *)

Module ProfileReportBasedColumnsDataAssistant.

Section DataAssistant.

(** The constants imported from
    [great_expectations.rule_based_profiler.parameter_container]; their
    values are fixed outside these sources, so everything below holds for
    any values. *)
Variable DOMAIN_KWARGS_PARAMETER_FULLY_QUALIFIED_NAME : string.
Variable FULLY_QUALIFIED_PARAMETER_NAME_METADATA_KEY : string.
Variable FULLY_QUALIFIED_PARAMETER_NAME_SEPARATOR_CHARACTER : string.
Variable FULLY_QUALIFIED_PARAMETER_NAME_VALUE_KEY : string.
Variable VARIABLES_KEY : string.

(** Two members of the engine that these sources call and do not
    declare: the function that names a builder after its metric, and the
    property [ParameterBuilder.json_serialized_fully_qualified_parameter_name],
    the name under which a builder's output is addressed. *)
Variable sanitize_parameter_name : string → string.
Variable json_serialized_fully_qualified_parameter_name :
  ParameterBuilder.t → string.

(** The types of the fields of a [DataAssistantResult], and of the
    validator a [DataAssistant] is created with. *)
Variables BatchIdentifierMap ProfilerConfig ExecutionTime RuleExecutionTimes
          MetricsByDomain ExpectationConfiguration Citation
          UsageStatisticsHandler Validator : Type.

(** What a result records of failures, and the value the constructor of
    the result classes gives it when it is not passed. *)
Variable Status : Type.
Variable default_status : Status.

(** The engine's template resolution, [resolve_template] of the Parameter
    Store: for a store, a Domain and the Rule's variables it maps a
    template to a payload or fails. *)
Variables Store Payload : Type.
Variable resolve_template :
  Store → Domain.t → gmap string value → string → result Payload.

(** Modelled from the spec: the class [DataAssistantResult] is declared
    outside these sources.  It has the nine fields that the source reads,
    and by the spec a Result also records the failures of a run ("recorded
    in Result.status; never silently dropped"): the field [status]. *)
Record DataAssistantResult : Type := new_DataAssistantResult {
  _batch_id_to_batch_identifier_display_name_map : BatchIdentifierMap;
  profiler_config : ProfilerConfig;
  profiler_execution_time : ExecutionTime;
  rule_domain_builder_execution_time : RuleExecutionTimes;
  rule_execution_time : RuleExecutionTimes;
  metrics_by_domain : MetricsByDomain;
  expectation_configurations : list ExpectationConfiguration;
  citation : Citation;
  _usage_statistics_handler : UsageStatisticsHandler;
  status : Status;
}.

(** Modelled from the spec: the subclass is declared outside these sources;
    it is constructed with the keyword arguments of [DataAssistantResult],
    and an object of it is a [DataAssistantResult] under another class. *)
Record ProfileReportBasedColumnsDataAssistantResult : Type :=
  new_ProfileReportBasedColumnsDataAssistantResult {
    as_DataAssistantResult : DataAssistantResult;
  }.

Record t : Type := new {
  name : string;
  validator : Validator;
}.

(** Modelled from the spec: the factory
    [DataAssistant.commonly_used_parameter_builders.build_metric_single_batch_parameter_builder]
    is declared outside these sources.  By the spec a Parameter Builder
    declares a metric name, domain kwargs and value kwargs: the factory
    keeps its three arguments and names the builder after the metric. *)
Definition build_metric_single_batch_parameter_builder
    (metric_name : string) (metric_domain_kwargs metric_value_kwargs : kwargs_arg)
  : ParameterBuilder.t :=
  ParameterBuilder.new (sanitize_parameter_name metric_name)
    metric_name metric_domain_kwargs metric_value_kwargs.

Definition json_of_kwargs_arg (a : kwargs_arg) : json :=
  match a with
  | KwNone => JNull
  | KwName s => JString s
  | KwDict d => JObject d
  end.

(** Modelled from the spec: [ParameterBuilder.to_json_dict] is declared
    outside these sources.  The dictionary holds what a re-declaration
    needs: the builder's name and its metric spec. *)
Definition to_json_dict (builder : ParameterBuilder.t) : gmap string json :=
  {[ "name" := JString (ParameterBuilder.name builder);
     "metric_name" := JString (ParameterBuilder.metric_name builder);
     "metric_domain_kwargs" :=
       json_of_kwargs_arg (ParameterBuilder.metric_domain_kwargs builder);
     "metric_value_kwargs" :=
       json_of_kwargs_arg (ParameterBuilder.metric_value_kwargs builder) ]}.

Definition kwargs_arg_of_json (j : json) : option kwargs_arg :=
  match j with
  | JNull => Some KwNone
  | JString s => Some (KwName s)
  | JObject d => Some (KwDict d)
  | JBoolean _ => None
  end.

(** Modelled from the spec: the builder a config re-declares, read back
    from the config's name and metric spec. *)
Definition redeclared_builder (config : ParameterBuilderConfig.t)
  : option ParameterBuilder.t :=
  let keywords := ParameterBuilderConfig.kwargs config in
  match keywords !! "metric_name" with
  | Some (JString metric) =>
      domain_kwargs ← keywords !! "metric_domain_kwargs" ≫= kwargs_arg_of_json;
      value_kwargs ← keywords !! "metric_value_kwargs" ≫= kwargs_arg_of_json;
      Some (ParameterBuilder.new (ParameterBuilderConfig.name config)
              metric domain_kwargs value_kwargs)
  | _ => None
  end.

(** Modelled from the spec: a Configuration Builder resolves each field
    that holds a template "against store/variables for the given domain";
    a field that the builder does not have resolves to nothing. *)
Definition resolve_field (store : Store) (domain : Domain.t)
    (variables : gmap string value)
    (builder : DefaultExpectationConfigurationBuilder.t) (field : string)
  : option (result Payload) :=
  match DefaultExpectationConfigurationBuilder.kwargs builder !! field with
  | Some (VStr template) =>
      Some (resolve_template store domain variables template)
  | _ => None
  end.

Definition get_variables (self : t) : option (gmap string value) := None.

Definition _build_columns_rule : result Rule.t :=
  (* Step-1 *)
  let column_domain_builder :=
    {| ColumnDomainBuilder.include_column_names := None;
       ColumnDomainBuilder.exclude_column_names := None;
       ColumnDomainBuilder.include_column_name_suffixes := None;
       ColumnDomainBuilder.exclude_column_name_suffixes := None;
       ColumnDomainBuilder.semantic_type_filter_module_name := None;
       ColumnDomainBuilder.semantic_type_filter_class_name := None;
       ColumnDomainBuilder.include_semantic_types := None;
       ColumnDomainBuilder.exclude_semantic_types := None;
       ColumnDomainBuilder.data_context := None |} in
  (* Step-2 *)
  let data_profiler_profile_report_metric_single_batch_parameter_builder_for_metrics :=
    build_metric_single_batch_parameter_builder
      "data_profiler.column_profile_report"
      (KwName DOMAIN_KWARGS_PARAMETER_FULLY_QUALIFIED_NAME)
      (KwDict {[ "profile_path" := VStr (VARIABLES_KEY +:+ "profile_path") ]}) in
  (* Step-3 *)
  let data_profiler_profile_report_metric_single_batch_parameter_builder_for_validations :=
    data_profiler_profile_report_metric_single_batch_parameter_builder_for_metrics in
  (* Step-4 *)
  config ← ParameterBuilderConfig.new
             (to_json_dict
                data_profiler_profile_report_metric_single_batch_parameter_builder_for_validations);
  let validation_parameter_builder_configs := Some [config] in
  let expect_column_min_to_be_between_expectation_configuration_builder :=
    {| DefaultExpectationConfigurationBuilder.expectation_type :=
         "expect_column_min_to_be_between";
       DefaultExpectationConfigurationBuilder.validation_parameter_builder_configs :=
         validation_parameter_builder_configs;
       DefaultExpectationConfigurationBuilder.kwargs :=
         {[ "column" :=
              VStr (DOMAIN_KWARGS_PARAMETER_FULLY_QUALIFIED_NAME
                    +:+ FULLY_QUALIFIED_PARAMETER_NAME_SEPARATOR_CHARACTER
                    +:+ "column");
            "min_value" :=
              VStr (json_serialized_fully_qualified_parameter_name
                      data_profiler_profile_report_metric_single_batch_parameter_builder_for_validations
                    +:+ FULLY_QUALIFIED_PARAMETER_NAME_SEPARATOR_CHARACTER
                    +:+ FULLY_QUALIFIED_PARAMETER_NAME_VALUE_KEY
                    +:+ ".statistics.min");
            "max_value" :=
              VStr (json_serialized_fully_qualified_parameter_name
                      data_profiler_profile_report_metric_single_batch_parameter_builder_for_validations
                    +:+ FULLY_QUALIFIED_PARAMETER_NAME_SEPARATOR_CHARACTER
                    +:+ FULLY_QUALIFIED_PARAMETER_NAME_VALUE_KEY
                    +:+ ".statistics.min");
            "strict_min" := VStr (VARIABLES_KEY +:+ "strict_min");
            "strict_max" := VStr (VARIABLES_KEY +:+ "strict_max") ]};
       DefaultExpectationConfigurationBuilder.meta :=
         {[ "profiler_details" :=
              VStr (json_serialized_fully_qualified_parameter_name
                      data_profiler_profile_report_metric_single_batch_parameter_builder_for_validations
                    +:+ FULLY_QUALIFIED_PARAMETER_NAME_SEPARATOR_CHARACTER
                    +:+ FULLY_QUALIFIED_PARAMETER_NAME_METADATA_KEY) ]} |} in
  (* Step-5 *)
  let variables : gmap string value :=
    {[ "strict_min" := VBool false;
       "strict_max" := VBool false;
       "profile_path" := VStr "default_profiler_path" ]} in
  let parameter_builders :=
    [ data_profiler_profile_report_metric_single_batch_parameter_builder_for_metrics ] in
  let expectation_configuration_builders :=
    [ expect_column_min_to_be_between_expectation_configuration_builder ] in
  let rule :=
    {| Rule.name := "columns_rule";
       Rule.variables := variables;
       Rule.domain_builder := IsColumnDomainBuilder column_domain_builder;
       Rule.parameter_builders := parameter_builders;
       Rule.expectation_configuration_builders :=
         expectation_configuration_builders |} in
  mret rule.

Definition get_rules (self : t) : result (option (list Rule.t)) :=
  columns_rule ← _build_columns_rule;
  mret (Some [ columns_rule ]).

(** The constructor is called with nine keyword arguments; [status] is not
    among them and takes the default of the class. *)
Definition _build_data_assistant_result
    (self : t) (data_assistant_result : DataAssistantResult)
  : ProfileReportBasedColumnsDataAssistantResult :=
  new_ProfileReportBasedColumnsDataAssistantResult
    {| _batch_id_to_batch_identifier_display_name_map :=
         _batch_id_to_batch_identifier_display_name_map data_assistant_result;
       profiler_config := profiler_config data_assistant_result;
       profiler_execution_time := profiler_execution_time data_assistant_result;
       rule_domain_builder_execution_time :=
         rule_domain_builder_execution_time data_assistant_result;
       rule_execution_time := rule_execution_time data_assistant_result;
       metrics_by_domain := metrics_by_domain data_assistant_result;
       expectation_configurations :=
         expectation_configurations data_assistant_result;
       citation := citation data_assistant_result;
       _usage_statistics_handler :=
         _usage_statistics_handler data_assistant_result;
       status := default_status |}.

(** *** What [_build_columns_rule] returns *)

Abbreviation SEPARATOR := FULLY_QUALIFIED_PARAMETER_NAME_SEPARATOR_CHARACTER
  (only parsing).
Abbreviation VALUE_KEY := FULLY_QUALIFIED_PARAMETER_NAME_VALUE_KEY (only parsing).
Abbreviation METADATA_KEY := FULLY_QUALIFIED_PARAMETER_NAME_METADATA_KEY
  (only parsing).
Abbreviation DOMAIN_KWARGS := DOMAIN_KWARGS_PARAMETER_FULLY_QUALIFIED_NAME
  (only parsing).
Abbreviation ecb_kwargs := DefaultExpectationConfigurationBuilder.kwargs
  (only parsing).

(** Serializing a builder always gives the constructor its [name]. *)
Lemma new_config_of_to_json_dict (builder : ParameterBuilder.t) :
  ParameterBuilderConfig.new (to_json_dict builder) =
    Return (ParameterBuilderConfig.mk (ParameterBuilder.name builder)
              (delete "name" (to_json_dict builder))).
Proof. reflexivity. Qed.

Lemma kwargs_arg_of_json_of_kwargs_arg (a : kwargs_arg) :
  kwargs_arg_of_json (json_of_kwargs_arg a) = Some a.
Proof. by destruct a. Qed.

(** A config made from a builder's serialization re-declares that
    builder. *)
Lemma redeclared_builder_of_to_json_dict (builder : ParameterBuilder.t) :
  returns (ParameterBuilderConfig.new (to_json_dict builder))
    (λ config,
       ParameterBuilderConfig.name config = ParameterBuilder.name builder
       ∧ redeclared_builder config = Some builder).
Proof.
  exists (ParameterBuilderConfig.mk (ParameterBuilder.name builder)
            (delete "name" (to_json_dict builder))).
  split_and!; [apply new_config_of_to_json_dict | done |].
  destruct builder as [n m dk vk]. unfold redeclared_builder.
  cbn [ParameterBuilderConfig.kwargs ParameterBuilderConfig.name].
  replace (delete "name" (to_json_dict (ParameterBuilder.new n m dk vk))
             !! "metric_name") with (Some (JString m)) by reflexivity.
  replace (delete "name" (to_json_dict (ParameterBuilder.new n m dk vk))
             !! "metric_domain_kwargs")
    with (Some (json_of_kwargs_arg dk)) by reflexivity.
  replace (delete "name" (to_json_dict (ParameterBuilder.new n m dk vk))
             !! "metric_value_kwargs")
    with (Some (json_of_kwargs_arg vk)) by reflexivity.
  cbn [mbind option_bind].
  by rewrite !kwargs_arg_of_json_of_kwargs_arg.
Qed.

(** C1.  In the Rule built by [_build_columns_rule], the [min_value] and
    the [max_value] field of the configuration builder hold the same
    template: the parameter builder's fully-qualified name, the separator,
    the value key and ".statistics.min".  So for every store and every
    Domain both fields resolve to the same result. *)
Theorem min_value_and_max_value_share_one_template :
  returns _build_columns_rule (λ rule,
    ∃ builder configuration_builder template,
      Rule.parameter_builders rule = [builder]
      ∧ Rule.expectation_configuration_builders rule = [configuration_builder]
      ∧ template =
          json_serialized_fully_qualified_parameter_name builder
            +:+ SEPARATOR +:+ VALUE_KEY +:+ ".statistics.min"
      ∧ ecb_kwargs configuration_builder !! "min_value" = Some (VStr template)
      ∧ ecb_kwargs configuration_builder !! "max_value" = Some (VStr template)
      ∧ ∀ (store : Store) (domain : Domain.t),
          resolve_field store domain (Rule.variables rule)
            configuration_builder "min_value"
          = Some (resolve_template store domain (Rule.variables rule) template)
          ∧ resolve_field store domain (Rule.variables rule)
              configuration_builder "max_value"
            = resolve_field store domain (Rule.variables rule)
                configuration_builder "min_value").
Proof.
  eexists. split; [reflexivity |].
  eexists _, _, _. split_and!; [reflexivity .. |].
  intros store domain. split; reflexivity.
Qed.

(** C2.  Every field of the configuration builder built by
    [_build_columns_rule] holds a template of one of the three namespaces:
    [column] is the domain-kwargs name, the separator and "column";
    [min_value] and [max_value] start with the parameter builder's
    fully-qualified name, the separator and the value key; [strict_min]
    and [strict_max] are the variables key followed by their own name;
    and the [profiler_details] entry of [meta] is the parameter builder's
    fully-qualified name, the separator and the metadata key.  There is no
    other field. *)
Theorem configuration_builder_fields_by_namespace :
  returns _build_columns_rule (λ rule,
    ∃ builder configuration_builder,
      Rule.parameter_builders rule = [builder]
      ∧ Rule.expectation_configuration_builders rule = [configuration_builder]
      ∧ dom (ecb_kwargs configuration_builder)
        = {[ "column"; "min_value"; "max_value"; "strict_min"; "strict_max" ]}
      ∧ dom (DefaultExpectationConfigurationBuilder.meta configuration_builder)
        = {[ "profiler_details" ]}
      ∧ ecb_kwargs configuration_builder !! "column"
        = Some (VStr (DOMAIN_KWARGS +:+ SEPARATOR +:+ "column"))
      ∧ ecb_kwargs configuration_builder !! "min_value"
        = Some (VStr (json_serialized_fully_qualified_parameter_name builder
                        +:+ SEPARATOR +:+ VALUE_KEY +:+ ".statistics.min"))
      ∧ ecb_kwargs configuration_builder !! "max_value"
        = Some (VStr (json_serialized_fully_qualified_parameter_name builder
                        +:+ SEPARATOR +:+ VALUE_KEY +:+ ".statistics.min"))
      ∧ ecb_kwargs configuration_builder !! "strict_min"
        = Some (VStr (VARIABLES_KEY +:+ "strict_min"))
      ∧ ecb_kwargs configuration_builder !! "strict_max"
        = Some (VStr (VARIABLES_KEY +:+ "strict_max"))
      ∧ DefaultExpectationConfigurationBuilder.meta configuration_builder
          !! "profiler_details"
        = Some (VStr (json_serialized_fully_qualified_parameter_name builder
                        +:+ SEPARATOR +:+ METADATA_KEY))).
Proof.
  eexists. split; [reflexivity |].
  eexists _, _. split_and!; reflexivity.
Qed.

(** C3.  [_build_columns_rule] returns a Rule named "columns_rule" with one
    Domain Builder, a [ColumnDomainBuilder]; one Parameter Builder; one
    Configuration Builder, for "expect_column_min_to_be_between"; and a
    variables mapping.  [get_rules] returns the list of this one Rule. *)
Theorem columns_rule_shape (self : t) :
  returns _build_columns_rule (λ rule,
    Rule.name rule = "columns_rule"
    ∧ (∃ column_domain_builder,
         Rule.domain_builder rule = IsColumnDomainBuilder column_domain_builder)
    ∧ length (Rule.parameter_builders rule) = 1
    ∧ (∃ configuration_builder,
         Rule.expectation_configuration_builders rule = [configuration_builder]
         ∧ DefaultExpectationConfigurationBuilder.expectation_type
             configuration_builder
           = "expect_column_min_to_be_between")
    ∧ get_rules self = Return (Some [rule])).
Proof.
  eexists. split; [reflexivity |].
  split_and!; [reflexivity | by eexists | reflexivity | | reflexivity].
  eexists. split; reflexivity.
Qed.

(** C4.  The variables of the columns rule have exactly the keys
    [strict_min], [strict_max] and [profile_path], bound to [False],
    [False] and "default_profiler_path"; and [get_variables] returns
    [None]. *)
Theorem columns_rule_variables (self : t) :
  returns _build_columns_rule (λ rule,
    dom (Rule.variables rule) = {[ "strict_min"; "strict_max"; "profile_path" ]}
    ∧ Rule.variables rule !! "strict_min" = Some (VBool false)
    ∧ Rule.variables rule !! "strict_max" = Some (VBool false)
    ∧ Rule.variables rule !! "profile_path" = Some (VStr "default_profiler_path"))
  ∧ get_variables self = None.
Proof.
  split; [| reflexivity].
  eexists. split; [reflexivity |].
  split_and!; reflexivity.
Qed.

(** C5.  The one entry of [validation_parameter_builder_configs] is the
    [ParameterBuilderConfig] made from [to_json_dict] of the very builder
    that is the one element of the Rule's [parameter_builders]; it carries
    that builder's name and metric spec, and reading the config back gives
    that builder (as it does for the serialization of any builder). *)
Theorem validation_config_redeclares_the_parameter_builder :
  returns _build_columns_rule (λ rule,
    ∃ builder configuration_builder config,
      Rule.parameter_builders rule = [builder]
      ∧ Rule.expectation_configuration_builders rule = [configuration_builder]
      ∧ DefaultExpectationConfigurationBuilder.validation_parameter_builder_configs
          configuration_builder
        = Some [config]
      ∧ ParameterBuilderConfig.new (to_json_dict builder) = Return config
      ∧ ParameterBuilderConfig.name config = ParameterBuilder.name builder
      ∧ ParameterBuilderConfig.kwargs config !! "metric_name"
        = Some (JString (ParameterBuilder.metric_name builder))
      ∧ ParameterBuilderConfig.kwargs config !! "metric_domain_kwargs"
        = Some (json_of_kwargs_arg (ParameterBuilder.metric_domain_kwargs builder))
      ∧ ParameterBuilderConfig.kwargs config !! "metric_value_kwargs"
        = Some (json_of_kwargs_arg (ParameterBuilder.metric_value_kwargs builder))
      ∧ redeclared_builder config = Some builder)
  ∧ ∀ builder : ParameterBuilder.t,
      returns (ParameterBuilderConfig.new (to_json_dict builder))
        (λ config, redeclared_builder config = Some builder).
Proof.
  split.
  - eexists. split; [reflexivity |].
    eexists _, _, _. split_and!; reflexivity.
  - intros builder.
    destruct (redeclared_builder_of_to_json_dict builder)
      as (config & Hnew & _ & Hback).
    by exists config.
Qed.

(** C6.  The one Parameter Builder of the columns rule declares the metric
    "data_profiler.column_profile_report", declares its domain kwargs by
    the fully-qualified name of the Domain's kwargs and not by a literal
    dictionary, and declares value kwargs whose only entry, [profile_path],
    is the variables key followed by "profile_path". *)
Theorem parameter_builder_declaration :
  returns _build_columns_rule (λ rule,
    ∃ builder value_kwargs,
      Rule.parameter_builders rule = [builder]
      ∧ ParameterBuilder.metric_name builder
        = "data_profiler.column_profile_report"
      ∧ ParameterBuilder.metric_domain_kwargs builder
        = KwName DOMAIN_KWARGS
      ∧ ParameterBuilder.metric_value_kwargs builder = KwDict value_kwargs
      ∧ dom value_kwargs = {[ "profile_path" ]}
      ∧ value_kwargs !! "profile_path"
        = Some (VStr (VARIABLES_KEY +:+ "profile_path"))).
Proof.
  eexists. split; [reflexivity |].
  eexists _, _. split_and!; reflexivity.
Qed.

(** A builder whose filters are all [None] keeps the whole schema. *)
Lemma get_effective_columns_no_filter
    (b : ColumnDomainBuilder.t) (schema : list ColumnDomainBuilder.Column) :
  ColumnDomainBuilder.include_column_names b = None →
  ColumnDomainBuilder.exclude_column_names b = None →
  ColumnDomainBuilder.include_column_name_suffixes b = None →
  ColumnDomainBuilder.exclude_column_name_suffixes b = None →
  ColumnDomainBuilder.include_semantic_types b = None →
  ColumnDomainBuilder.exclude_semantic_types b = None →
  ColumnDomainBuilder.get_effective_columns b schema = schema.
Proof.
  intros Hin Hex Hins Hexs Hint Hext.
  unfold ColumnDomainBuilder.get_effective_columns,
    ColumnDomainBuilder.excluding, ColumnDomainBuilder.including.
  by rewrite Hin, Hex, Hins, Hexs, Hint, Hext.
Qed.

(** C7.  The [ColumnDomainBuilder] of the columns rule has every filter
    argument [None]: names, name suffixes and semantic types, to include
    and to exclude, and the module and class of the semantic type filter.
    So the filter pipeline keeps every column of any schema, and
    [build_domains] yields the column Domain of each column, in order
    (and finds no Domain only in an empty schema). *)
Theorem column_domain_builder_selects_all_columns :
  returns _build_columns_rule (λ rule,
    ∃ b,
      Rule.domain_builder rule = IsColumnDomainBuilder b
      ∧ ColumnDomainBuilder.include_column_names b = None
      ∧ ColumnDomainBuilder.exclude_column_names b = None
      ∧ ColumnDomainBuilder.include_column_name_suffixes b = None
      ∧ ColumnDomainBuilder.exclude_column_name_suffixes b = None
      ∧ ColumnDomainBuilder.semantic_type_filter_module_name b = None
      ∧ ColumnDomainBuilder.semantic_type_filter_class_name b = None
      ∧ ColumnDomainBuilder.include_semantic_types b = None
      ∧ ColumnDomainBuilder.exclude_semantic_types b = None
      ∧ ∀ schema : list ColumnDomainBuilder.Column,
          ColumnDomainBuilder.get_effective_columns b schema = schema
          ∧ ColumnDomainBuilder.build_domains b schema
            = match schema with
              | [] => Raise NoDomainsFoundError
              | _ => Return (ColumnDomainBuilder.column_domain <$> schema)
              end).
Proof.
  eexists. split; [reflexivity |].
  eexists. split_and!; [reflexivity .. |].
  intros schema.
  split; [by apply get_effective_columns_no_filter |].
  unfold ColumnDomainBuilder.build_domains.
  rewrite get_effective_columns_no_filter by reflexivity.
  by destruct schema.
Qed.


(** What the conversion leaves behind: the result is the given one with
    the status of a fresh result. *)
Lemma build_data_assistant_result_status
    (self : t) (data_assistant_result : DataAssistantResult) :
  status (as_DataAssistantResult
            (_build_data_assistant_result self data_assistant_result))
  = default_status.
Proof. reflexivity. Qed.

End DataAssistant.


End ProfileReportBasedColumnsDataAssistant.

(** ** Facts about [str.lower] and [str.endswith] *)

Module StrFacts.
Import Str.

Example lower_mixed : lower "/Data/Taxi.CSV" = "/data/taxi.csv".
Proof. reflexivity. Qed.

Example lower_keeps_brackets : lower "@[`{A-Z}" = "@[`{a-z}".
Proof. reflexivity. Qed.

Example endswith_yes : endswith "taxi.csv" ".csv" = true.
Proof. reflexivity. Qed.

Example endswith_no : endswith "taxi.csv.gz" ".csv" = false.
Proof. reflexivity. Qed.

Example endswith_short : endswith "sv" ".csv" = false.
Proof. reflexivity. Qed.

Example endswith_empty_suffix : endswith "abc" "" = true.
Proof. reflexivity. Qed.

Lemma endswith_unfold (s suffix : string) :
  endswith s suffix =
    if String.eqb s suffix then true
    else match s with
         | EmptyString => false
         | String _ s' => endswith s' suffix
         end.
Proof. by destruct s. Qed.

Lemma endswith_refl (s : string) : endswith s s = true.
Proof. rewrite endswith_unfold. by rewrite String.eqb_refl. Qed.

Lemma endswith_cons (c : ascii) (s suffix : string) :
  endswith s suffix = true → endswith (String c s) suffix = true.
Proof.
  intros H. rewrite endswith_unfold.
  destruct (String.eqb (String c s) suffix); [done | exact H].
Qed.

Lemma endswith_inv (s suffix : string) :
  endswith s suffix = true →
  s = suffix ∨ ∃ c s', s = String c s' ∧ endswith s' suffix = true.
Proof.
  rewrite endswith_unfold.
  destruct (String.eqb s suffix) eqn:E.
  - intros _. left. by apply String.eqb_eq.
  - destruct s as [|c s']; [done |]. intros H. right. by exists c, s'.
Qed.

Lemma endswith_spec (s suffix : string) :
  endswith s suffix = true ↔ ends_with s suffix.
Proof.
  split.
  - induction s as [|c s IH]; intros H.
    + apply endswith_inv in H as [-> | (c & s' & [=] & _)].
      by exists "".
    + apply endswith_inv in H as [-> | (c' & s' & [= -> ->] & H)].
      * by exists "".
      * destruct (IH H) as [front ->]. by exists (String c' front).
  - intros [front ->]. induction front as [|c front IH].
    + apply endswith_refl.
    + by apply endswith_cons.
Qed.

(** Two suffixes of one string are suffixes of each other, one way or
    the other. *)
Lemma endswith_comparable (s a b : string) :
  endswith s a = true → endswith s b = true →
  endswith a b = true ∨ endswith b a = true.
Proof.
  induction s as [|c s IH]; intros Ha Hb.
  - apply endswith_inv in Ha as [<- | (? & ? & [=] & _)]. by left.
  - apply endswith_inv in Ha as [<- | (c1 & s1 & [= <- <-] & Ha)].
    + by left.
    + apply endswith_inv in Hb as [<- | (c2 & s2 & [= <- <-] & Hb)].
      * right. by apply endswith_cons.
      * by apply IH.
Qed.

Lemma lower_char_idemp (c : ascii) : lower_char (lower_char c) = lower_char c.
Proof. by destruct c as [[] [] [] [] [] [] [] []]. Qed.

Lemma lower_idemp (s : string) : lower (lower s) = lower s.
Proof.
  induction s as [|c s IH]; [done |].
  simpl. by rewrite lower_char_idemp, IH.
Qed.

End StrFacts.

(** ** Facts about [SparkDFDatasource.guess_reader_method_from_path] *)

Module SparkDFDatasourceFacts.
Import SparkDFDatasource.

Example guess_csv :
  guess_reader_method_from_path "s3://bucket/Trips.CSV" = Return csv_reader.
Proof. reflexivity. Qed.

Example guess_tsv :
  guess_reader_method_from_path "trips.tsv" = Return csv_reader.
Proof. reflexivity. Qed.

Example guess_parquet :
  guess_reader_method_from_path "/data/part-0.Parquet" = Return parquet_reader.
Proof. reflexivity. Qed.

Example guess_pqt :
  guess_reader_method_from_path "x.PQT" = Return parquet_reader.
Proof. reflexivity. Qed.

Example guess_gz :
  guess_reader_method_from_path "Trips.csv.GZ" =
    Raise (BatchKwargsError
             "Unable to determine reader method from path: trips.csv.gz"
             {[ "path" := VStr "trips.csv.gz" ]}).
Proof. reflexivity. Qed.

Example guess_empty :
  raises_batch_kwargs_error (guess_reader_method_from_path "").
Proof. by eexists _, _. Qed.

Lemma csv_like_endswith (path : string) :
  csv_like path ↔
  Str.endswith (Str.lower path) ".csv" || Str.endswith (Str.lower path) ".tsv" = true.
Proof.
  unfold csv_like. rewrite orb_true_iff.
  by rewrite !StrFacts.endswith_spec.
Qed.

Lemma parquet_like_endswith (path : string) :
  parquet_like path ↔
  Str.endswith (Str.lower path) ".parquet"
    || Str.endswith (Str.lower path) ".parq"
    || Str.endswith (Str.lower path) ".pqt" = true.
Proof.
  unfold parquet_like. rewrite !orb_true_iff.
  rewrite !StrFacts.endswith_spec. tauto.
Qed.

(** No string ends both in a csv suffix and in a parquet suffix. *)
Lemma csv_parquet_disjoint (s : string) :
  Str.endswith s ".csv" || Str.endswith s ".tsv" = true →
  Str.endswith s ".parquet" || Str.endswith s ".parq" || Str.endswith s ".pqt" = true →
  False.
Proof.
  rewrite !orb_true_iff.
  intros [Ha | Ha] [[Hb | Hb] | Hb];
    by destruct (StrFacts.endswith_comparable _ _ _ Ha Hb).
Qed.

Lemma csv_reader_neq_parquet_reader : csv_reader ≠ parquet_reader.
Proof.
  intros H. apply (f_equal (lookup "reader_method")) in H.
  unfold csv_reader, parquet_reader in H.
  by rewrite !lookup_singleton_eq in H.
Qed.

Lemma guess_reader_method_lower (path : string) :
  guess_reader_method_from_path (Str.lower path) =
    guess_reader_method_from_path path.
Proof. unfold guess_reader_method_from_path. by rewrite StrFacts.lower_idemp. Qed.

Lemma guess_when_csv (path : string) :
  Str.endswith (Str.lower path) ".csv" || Str.endswith (Str.lower path) ".tsv" = true →
  guess_reader_method_from_path path = Return csv_reader.
Proof. unfold guess_reader_method_from_path. cbv zeta. by intros ->. Qed.

Lemma guess_when_parquet (path : string) :
  Str.endswith (Str.lower path) ".csv" || Str.endswith (Str.lower path) ".tsv" = false →
  Str.endswith (Str.lower path) ".parquet"
    || Str.endswith (Str.lower path) ".parq"
    || Str.endswith (Str.lower path) ".pqt" = true →
  guess_reader_method_from_path path = Return parquet_reader.
Proof. unfold guess_reader_method_from_path. cbv zeta. by intros -> ->. Qed.

Lemma guess_otherwise (path : string) :
  Str.endswith (Str.lower path) ".csv" || Str.endswith (Str.lower path) ".tsv" = false →
  Str.endswith (Str.lower path) ".parquet"
    || Str.endswith (Str.lower path) ".parq"
    || Str.endswith (Str.lower path) ".pqt" = false →
  guess_reader_method_from_path path =
    Raise (BatchKwargsError
             ("Unable to determine reader method from path: " +:+ Str.lower path)
             {[ "path" := VStr (Str.lower path) ]}).
Proof. unfold guess_reader_method_from_path. cbv zeta. by intros -> ->. Qed.

End SparkDFDatasourceFacts.

(** ** Facts about the column filter pipeline *)

Module ColumnDomainBuilderFacts.
Import ColumnDomainBuilder.

(** The filter precedence test of the spec: including [x] and [y] and
    excluding [y] over the schema [x, y, z] yields exactly [x]. *)
Example exclude_wins_over_include :
  get_effective_columns
    (ColumnDomainBuilder.new (Some ["x"; "y"]) (Some ["y"]) None None None None
       None None None)
    [ column "x" NUMERIC; column "y" TEXT; column "z" NUMERIC ]
  = [ column "x" NUMERIC ].
Proof. reflexivity. Qed.

Example suffix_then_semantic_type :
  get_effective_columns
    (ColumnDomainBuilder.new None None (Some ["_id"]) None None None
       (Some [NUMERIC]) None None)
    [ column "user_id" NUMERIC; column "session_id" TEXT; column "amount" NUMERIC ]
  = [ column "user_id" NUMERIC ].
Proof. reflexivity. Qed.

Example no_domains_found :
  build_domains
    (ColumnDomainBuilder.new None (Some ["x"; "y"; "z"]) None None None None
       None None None)
    [ column "x" NUMERIC; column "y" TEXT; column "z" NUMERIC ]
  = Raise NoDomainsFoundError.
Proof. reflexivity. Qed.

Lemma including_subset {A : Type} (criterion : option A)
    (test : A → Column → bool) (columns : list Column) (c : Column) :
  In c (including criterion test columns) → In c columns.
Proof.
  destruct criterion as [a|]; [| done]. simpl.
  intros H. by apply filter_In in H as [? _].
Qed.

(** The pipeline only ever removes columns. *)
Lemma get_effective_columns_subset (self : t) (schema : list Column) (c : Column) :
  In c (get_effective_columns self schema) → In c schema.
Proof.
  unfold get_effective_columns, excluding.
  destruct (include_column_names self) as [names|]; intros H.
  - apply including_subset in H. by apply filter_In in H as [? _].
  - by do 5 apply including_subset in H.
Qed.

(** An excluded name never survives, whatever the other filters are. *)
Lemma excluded_name_is_dropped (self : t) (schema : list Column)
    (names : list string) (c : Column) :
  exclude_column_names self = Some names →
  column_name c ∈ names →
  ¬ In c (get_effective_columns self schema).
Proof.
  intros Hex Hc. unfold get_effective_columns, excluding. rewrite Hex.
  assert (Hdrop : ∀ columns,
    ¬ In c (including (Some names) (λ a c0, negb (name_in a c0)) columns)).
  { intros columns H. simpl in H. apply filter_In in H as [_ H].
    unfold name_in in H. by rewrite bool_decide_eq_true_2 in H. }
  destruct (include_column_names self) as [incl|]; intros H.
  - by apply Hdrop in H.
  - do 4 apply including_subset in H. by apply Hdrop in H.
Qed.

End ColumnDomainBuilderFacts.

(** ** Facts about Configurations and their accumulation *)

Module ConfigurationFacts.
Import Configuration Result.

Lemma eqb_spec (a b : Configuration.t) :
  eqb a b = true ↔ type a = type b ∧ fields a = fields b.
Proof.
  unfold eqb. by rewrite andb_true_iff, !bool_decide_eq_true.
Qed.

(** Equal Configurations compare alike with any third one. *)
Lemma eqb_same_key (a b c : Configuration.t) :
  type a = type b → fields a = fields b → eqb a c = eqb b c.
Proof. unfold eqb. by intros -> ->. Qed.

Lemma existsb_eqb_same_key (a b : Configuration.t)
    (configurations : list Configuration.t) :
  type a = type b → fields a = fields b →
  existsb (eqb a) configurations = existsb (eqb b) configurations.
Proof.
  intros Htype Hfields.
  induction configurations as [|c configurations IH]; [done |].
  simpl. by rewrite IH, (eqb_same_key a b c).
Qed.

(** Adding a Configuration equal to the one just added changes nothing. *)
Lemma add_configuration_twice (a b : Configuration.t)
    (configurations : list Configuration.t) :
  type a = type b → fields a = fields b →
  add_configuration (add_configuration configurations a) b
  = add_configuration configurations a.
Proof.
  intros Htype Hfields. unfold add_configuration.
  destruct (existsb (eqb a) configurations) eqn:Hpresent.
  - by rewrite <- (existsb_eqb_same_key a b), Hpresent.
  - rewrite existsb_app. simpl.
    replace (eqb b a) with true; [by rewrite orb_true_r |].
    symmetry. by apply eqb_spec.
Qed.

Lemma add_configuration_deduplicated (configurations : list Configuration.t)
    (c : Configuration.t) :
  deduplicated configurations →
  deduplicated (add_configuration configurations c).
Proof.
  intros H. unfold add_configuration.
  destruct (existsb (eqb c) configurations) eqn:Hpresent; [done |].
  by constructor.
Qed.

Lemma add_configurations_deduplicated
    (emitted configurations : list Configuration.t) :
  deduplicated configurations →
  deduplicated (add_configurations configurations emitted).
Proof.
  revert configurations.
  induction emitted as [|c emitted IH]; intros configurations H; [done |].
  simpl. apply IH. by apply add_configuration_deduplicated.
Qed.

Lemma eqb_refl (a : Configuration.t) : eqb a a = true.
Proof. by apply eqb_spec. Qed.

Lemma eqb_sym (a b : Configuration.t) : eqb a b = true → eqb b a = true.
Proof. rewrite !eqb_spec. by intros [-> ->]. Qed.

Lemma eqb_trans (a b c : Configuration.t) :
  eqb a b = true → eqb b c = true → eqb a c = true.
Proof. rewrite !eqb_spec. by intros [-> ->] [-> ->]. Qed.

(** What is in the accumulated list stays in it. *)
Lemma existsb_add_configuration (c x : Configuration.t)
    (configurations : list Configuration.t) :
  existsb (eqb c) configurations = true →
  existsb (eqb c) (add_configuration configurations x) = true.
Proof.
  intros H. unfold add_configuration.
  destruct (existsb (eqb x) configurations); [done |].
  by rewrite existsb_app, H.
Qed.

Lemma existsb_add_configurations (c : Configuration.t)
    (emitted configurations : list Configuration.t) :
  existsb (eqb c) configurations = true →
  existsb (eqb c) (add_configurations configurations emitted) = true.
Proof.
  revert configurations.
  induction emitted as [|x emitted IH]; intros configurations H; [done |].
  simpl. apply IH. by apply existsb_add_configuration.
Qed.

(** A Configuration that is added is in the list, itself or as an equal
    one that was there before. *)
Lemma existsb_add_configuration_self (c : Configuration.t)
    (configurations : list Configuration.t) :
  existsb (eqb c) (add_configuration configurations c) = true.
Proof.
  unfold add_configuration.
  destruct (existsb (eqb c) configurations) eqn:H; [done |].
  rewrite existsb_app. simpl. by rewrite eqb_refl, orb_true_r.
Qed.

(** Every emitted Configuration is represented in the accumulated list. *)
Lemma emitted_is_represented (c : Configuration.t)
    (emitted configurations : list Configuration.t) :
  c ∈ emitted →
  existsb (eqb c) (add_configurations configurations emitted) = true.
Proof.
  revert configurations.
  induction emitted as [|x emitted IH]; intros configurations Hc.
  - by apply elem_of_nil in Hc.
  - apply elem_of_cons in Hc as [-> | Hc]; simpl.
    + apply existsb_add_configurations, existsb_add_configuration_self.
    + by apply IH.
Qed.

Lemma filter_eqb_absent (c x : Configuration.t)
    (configurations : list Configuration.t) :
  existsb (eqb x) configurations = false → eqb c x = true →
  List.filter (eqb c) configurations = [].
Proof.
  intros Habsent Hcx.
  induction configurations as [|y configurations IH]; [done |].
  simpl in *. apply orb_false_iff in Habsent as [Hxy Habsent].
  destruct (eqb c y) eqn:Hcy; [| by apply IH].
  rewrite (eqb_trans x c y) in Hxy; [done | by apply eqb_sym | done].
Qed.

(** A deduplicated list holds at most one Configuration equal to a given
    one. *)
Lemma deduplicated_at_most_one (c : Configuration.t)
    (configurations : list Configuration.t) :
  deduplicated configurations →
  (length (List.filter (eqb c) configurations) ≤ 1)%nat.
Proof.
  induction 1 as [| configurations x Hded IH Habsent]; [simpl; lia |].
  rewrite List.filter_app, length_app. simpl.
  destruct (eqb c x) eqn:Hcx; simpl; [| lia].
  rewrite (filter_eqb_absent c x) by done. simpl. lia.
Qed.

Lemma present_at_least_one (c : Configuration.t)
    (configurations : list Configuration.t) :
  existsb (eqb c) configurations = true →
  (1 ≤ length (List.filter (eqb c) configurations))%nat.
Proof.
  induction configurations as [|y configurations IH]; [done |].
  simpl. destruct (eqb c y); simpl; [lia | done].
Qed.

Lemma filter_eqb_same_key (a b : Configuration.t)
    (configurations : list Configuration.t) :
  type a = type b → fields a = fields b →
  List.filter (eqb a) configurations = List.filter (eqb b) configurations.
Proof.
  intros Htype Hfields.
  induction configurations as [|c configurations IH]; [done |].
  simpl. by rewrite IH, (eqb_same_key a b c).
Qed.

(** C9.  Two Configurations are equal exactly when their type tags are
    equal and their field mappings are equal; [meta] plays no part.  So of
    two Configurations with the same type and fields the second is not
    added to a Result that has the first; and wherever the two are among the
    Configurations emitted, with any others before, between and after them,
    the accumulated list has exactly one entry equal to them.  No
    accumulated list has two equal entries. *)
Theorem configurations_equal_up_to_meta (c1 c2 : Configuration.t) :
  (eqb c1 c2 = true ↔ type c1 = type c2 ∧ fields c1 = fields c2)
  ∧ (∀ other_meta : gmap string value,
       eqb c1 (Configuration.new (type c1) (fields c1) other_meta) = true)
  ∧ (type c1 = type c2 → fields c1 = fields c2 →
     (∀ configurations : list Configuration.t,
        add_configuration (add_configuration configurations c1) c2
        = add_configuration configurations c1)
     ∧ add_configurations [] [c1; c2] = [c1]
     ∧ (∀ emitted : list Configuration.t,
          c1 ∈ emitted → c2 ∈ emitted →
          length (List.filter (eqb c1) (add_configurations [] emitted)) = 1
          ∧ List.filter (eqb c2) (add_configurations [] emitted)
            = List.filter (eqb c1) (add_configurations [] emitted)))
  ∧ (∀ emitted : list Configuration.t,
       deduplicated (add_configurations [] emitted)).
Proof.
  split_and!.
  - apply eqb_spec.
  - intros other_meta. by apply eqb_spec.
  - intros Htype Hfields. split_and!.
    + intros configurations. by apply add_configuration_twice.
    + change (add_configurations [] [c1; c2])
        with (add_configuration (add_configuration [] c1) c2).
      by rewrite add_configuration_twice.
    + intros emitted Hc1 Hc2. split.
      * apply Nat.le_antisymm.
        -- apply deduplicated_at_most_one, add_configurations_deduplicated.
           constructor.
        -- by apply present_at_least_one, emitted_is_represented.
      * symmetry. by apply filter_eqb_same_key.
  - intros emitted. apply add_configurations_deduplicated. constructor.
Qed.

(** Two range checks of one column, emitted for two Domains with a check
    of another column between them: the same type and fields, another
    [meta]. *)
Lemma configurations_equal_up_to_meta_witness :
  let from_a :=
    Configuration.new "range_check"
      {[ "field" := VStr "amount"; "strict" := VBool false ]}
      {[ "domain" := VStr "a" ]} in
  let between :=
    Configuration.new "range_check"
      {[ "field" := VStr "passenger_count"; "strict" := VBool false ]}
      {[ "domain" := VStr "c" ]} in
  let from_b :=
    Configuration.new "range_check"
      {[ "field" := VStr "amount"; "strict" := VBool false ]}
      {[ "domain" := VStr "b" ]} in
  type from_a = type from_b
  ∧ fields from_a = fields from_b
  ∧ meta from_a !! "domain" ≠ meta from_b !! "domain"
  ∧ add_configurations [] [from_a; from_b] = [from_a]
  ∧ add_configurations [] [from_a; between; from_b] = [from_a; between]
  ∧ length (List.filter (eqb from_b)
              (add_configurations [] [from_a; between; from_b])) = 1.
Proof.
  intros from_a between from_b.
  destruct (configurations_equal_up_to_meta from_a from_b)
    as (_ & _ & Hsame & _).
  destruct (Hsame eq_refl eq_refl) as (_ & Htwo & Hany).
  destruct (Hany [from_a; between; from_b]) as [Hone Hfilter];
    [apply list_elem_of_here
    | do 2 apply list_elem_of_further; apply list_elem_of_here |].
  split_and!; [reflexivity | reflexivity | by vm_compute | exact Htwo
              | reflexivity |].
  by rewrite Hfilter.
Defined.

End ConfigurationFacts.

(** ** More facts about strings *)

Module StrAppFacts.
Import Str.

Lemma app_cons (c : ascii) (a b : string) :
  String c a +:+ b = String c (a +:+ b).
Proof. reflexivity. Qed.

Lemma app_assoc (a b c : string) : (a +:+ b) +:+ c = a +:+ b +:+ c.
Proof.
  induction a as [|x a IH]; [done |].
  by rewrite !app_cons, IH.
Qed.

Lemma lower_app (a b : string) : lower (a +:+ b) = lower a +:+ lower b.
Proof.
  induction a as [|x a IH]; [done |].
  rewrite app_cons. simpl. by rewrite IH.
Qed.

Lemma length_lower (s : string) : String.length (lower s) = String.length s.
Proof. induction s as [|c s IH]; [done |]. simpl. by rewrite IH. Qed.

Lemma length_app (a b : string) :
  String.length (a +:+ b) = String.length a + String.length b.
Proof.
  induction a as [|x a IH]; [done |].
  rewrite app_cons. simpl. by rewrite IH.
Qed.

(** A suffix is no longer than the string. *)
Lemma endswith_length (s suffix : string) :
  endswith s suffix = true → (String.length suffix ≤ String.length s)%nat.
Proof.
  intros [front ->]%StrFacts.endswith_spec. rewrite length_app. lia.
Qed.

(** A suffix of a string is a suffix of every extension to the left. *)
Lemma endswith_app (front s suffix : string) :
  endswith s suffix = true → endswith (front +:+ s) suffix = true.
Proof.
  intros [middle ->]%StrFacts.endswith_spec.
  apply StrFacts.endswith_spec. exists (front +:+ middle).
  by rewrite app_assoc.
Qed.

(** A lower-cased string splits where the string does. *)
Lemma lower_app_inv (s a b : string) :
  lower s = a +:+ b →
  ∃ s1 s2, s = s1 +:+ s2 ∧ lower s1 = a ∧ lower s2 = b.
Proof.
  revert s. induction a as [|x a IH]; intros s H.
  - by exists "", s.
  - destruct s as [|y s]; [done |].
    rewrite app_cons in H. simpl in H. injection H as Hy Hs.
    destruct (IH s Hs) as (s1 & s2 & -> & <- & <-).
    exists (String y s1), s2. by rewrite <- Hy.
Qed.

(** A character lower-cases to a small letter, or to another character
    that has no capital, exactly when it is that character or its
    capital. *)
Lemma spelled_char (a b : ascii) :
  lower_char b = b →
  bool_decide (a = b) || bool_decide (a = upper_case b) = true
  ↔ lower_char a = b.
Proof.
  intros Hb. rewrite orb_true_iff, !bool_decide_eq_true. split.
  - intros [-> | ->]; [done |].
    destruct b as [[] [] [] [] [] [] [] []];
      vm_compute in Hb |- *; congruence.
  - intros <-.
    destruct a as [[] [] [] [] [] [] [] []]; vm_compute; auto.
Qed.

Lemma spelled_lower (tail word : string) :
  lower word = word → spelled tail word = true ↔ lower tail = word.
Proof.
  revert word. induction tail as [|a tail IH]; intros [|b word] Hword;
    simpl; try done.
  simpl in Hword. injection Hword as Hb Hword.
  rewrite andb_true_iff, (spelled_char a b Hb), (IH word Hword).
  split; [by intros [-> ->] | by intros [= -> ->]].
Qed.

(** The lower-cased path ends in a word without capitals exactly when the
    path ends in some spelling of the word. *)
Lemma ends_with_lower_spelling (path word : string) :
  lower word = word →
  ends_with (lower path) word ↔ ends_with_spelling path word.
Proof.
  intros Hword. split.
  - intros [front H].
    destruct (lower_app_inv _ _ _ H) as (s1 & s2 & -> & _ & Hs2).
    exists s1, s2. split; [done |]. by apply spelled_lower.
  - intros (front & tail & -> & H%spelled_lower); [| done].
    exists (lower front). by rewrite lower_app, H.
Qed.

Lemma is_continuation_lower_char (c : ascii) :
  is_continuation (lower_char c) = is_continuation c.
Proof. by destruct c as [[] [] [] [] [] [] [] []]. Qed.

Lemma characters_lower (s : string) : characters (lower s) = characters s.
Proof.
  induction s as [|c s IH]; [done |].
  simpl. by rewrite is_continuation_lower_char, IH.
Qed.

Lemma characters_app (a b : string) :
  characters (a +:+ b) = characters a + characters b.
Proof.
  induction a as [|x a IH]; [done |].
  rewrite app_cons. simpl. rewrite IH. lia.
Qed.

(** A path has at least the characters of a suffix of its lower-case
    form. *)
Lemma endswith_characters (path suffix : string) :
  endswith (lower path) suffix = true →
  (characters suffix ≤ characters path)%nat.
Proof.
  intros [front H]%StrFacts.endswith_spec.
  rewrite <- (characters_lower path), H, characters_app. lia.
Qed.

End StrAppFacts.

(** ** More facts about [guess_reader_method_from_path] *)

Module GuessReaderMethodFacts.
Import SparkDFDatasource.

Lemma csv_condition_app (directory path : string) :
  Str.endswith (Str.lower path) ".csv" || Str.endswith (Str.lower path) ".tsv" = true →
  Str.endswith (Str.lower (directory +:+ path)) ".csv"
    || Str.endswith (Str.lower (directory +:+ path)) ".tsv" = true.
Proof.
  rewrite StrAppFacts.lower_app, !orb_true_iff.
  intros [H | H]; [left | right]; by apply StrAppFacts.endswith_app.
Qed.

Lemma parquet_condition_app (directory path : string) :
  Str.endswith (Str.lower path) ".parquet"
    || Str.endswith (Str.lower path) ".parq"
    || Str.endswith (Str.lower path) ".pqt" = true →
  Str.endswith (Str.lower (directory +:+ path)) ".parquet"
    || Str.endswith (Str.lower (directory +:+ path)) ".parq"
    || Str.endswith (Str.lower (directory +:+ path)) ".pqt" = true.
Proof.
  rewrite StrAppFacts.lower_app, !orb_true_iff.
  intros [[H | H] | H]; [left; left | left; right | right];
    by apply StrAppFacts.endswith_app.
Qed.

(** The only dictionaries the guess returns. *)
Lemma guess_returns_csv_or_parquet (path : string) (guessed : gmap string value) :
  guess_reader_method_from_path path = Return guessed →
  guessed = csv_reader ∨ guessed = parquet_reader.
Proof.
  unfold guess_reader_method_from_path. cbv zeta.
  repeat case_match; intros [= <-]; auto.
Qed.

(** The only exception the guess raises. *)
Lemma guess_raises_only_batch_kwargs_error (path : string) (e : exn) :
  guess_reader_method_from_path path = Raise e →
  ∃ message batch_kwargs, e = BatchKwargsError message batch_kwargs.
Proof.
  unfold guess_reader_method_from_path. cbv zeta.
  repeat case_match; intros [= <-]; eauto.
Qed.

(** X1.  A reader method that is guessed for a path is guessed for the same
    path under any directory or scheme put in front of it. *)
Theorem guess_reader_method_under_any_prefix
    (directory path : string) (reader : gmap string value) :
  guess_reader_method_from_path path = Return reader →
  guess_reader_method_from_path (directory +:+ path) = Return reader.
Proof.
  destruct (Str.endswith (Str.lower path) ".csv"
            || Str.endswith (Str.lower path) ".tsv") eqn:Hcsv.
  - rewrite (SparkDFDatasourceFacts.guess_when_csv path Hcsv). intros [= <-].
    apply SparkDFDatasourceFacts.guess_when_csv. by apply csv_condition_app.
  - destruct (Str.endswith (Str.lower path) ".parquet"
              || Str.endswith (Str.lower path) ".parq"
              || Str.endswith (Str.lower path) ".pqt") eqn:Hpq.
    + rewrite (SparkDFDatasourceFacts.guess_when_parquet path Hcsv Hpq).
      intros [= <-].
      pose proof (parquet_condition_app directory path Hpq) as Hpq'.
      apply SparkDFDatasourceFacts.guess_when_parquet; [| done].
      apply not_true_is_false. intros Hcsv'.
      by apply (SparkDFDatasourceFacts.csv_parquet_disjoint
                  (Str.lower (directory +:+ path))).
    + by rewrite (SparkDFDatasourceFacts.guess_otherwise path Hcsv Hpq).
Qed.

Lemma guess_reader_method_under_any_prefix_witness :
  guess_reader_method_from_path ("s3://bucket/2019/" +:+ "Trips.TSV")
  = Return csv_reader.
Proof.
  apply (guess_reader_method_under_any_prefix "s3://bucket/2019/" "Trips.TSV").
  reflexivity.
Defined.

Lemma short_path_has_no_suffix (path suffix : string) :
  Str.characters path < Str.characters suffix →
  Str.endswith (Str.lower path) suffix = false.
Proof.
  intros Hshort. apply not_true_is_false. intros H.
  apply StrAppFacts.endswith_characters in H. lia.
Qed.

(** X2.  A path of fewer than four characters, the empty path among them,
    has no reader method: [BatchKwargsError] is raised.  The characters are
    those of the Python string, whose UTF-8 bytes the path is. *)
Theorem guess_reader_method_short_path (path : string) :
  Str.characters path < 4 →
  ∃ message batch_kwargs,
    guess_reader_method_from_path path
    = Raise (BatchKwargsError message batch_kwargs).
Proof.
  intros Hshort. eexists _, _.
  apply SparkDFDatasourceFacts.guess_otherwise;
    repeat (rewrite short_path_has_no_suffix by (simpl; lia)); done.
Qed.

Lemma guess_reader_method_short_path_witness :
  Str.characters "ÀÉ" = 2
  ∧ ∃ message batch_kwargs,
      guess_reader_method_from_path "ÀÉ"
      = Raise (BatchKwargsError message batch_kwargs).
Proof.
  split; [reflexivity |].
  apply (guess_reader_method_short_path "ÀÉ"). simpl. lia.
Defined.

(** C10.  For every path, [guess_reader_method_from_path] returns
    [{"reader_method": "csv"}] exactly when the lower-cased path ends in
    ".csv" or ".tsv", returns [{"reader_method": "parquet"}] exactly when
    it ends in ".parquet", ".parq" or ".pqt", and raises [BatchKwargsError]
    exactly in the remaining case; there is no other outcome.  The match
    does not look at the case of the letters: the lower-cased path ends in
    one of these words exactly when the path ends in some spelling of it
    in small and capital letters. *)
Theorem guess_reader_method_from_path_outcomes (path : string) :
  (guess_reader_method_from_path path
   = Return {[ "reader_method" := VStr "csv" ]}
   ↔ csv_like path)
  ∧ (guess_reader_method_from_path path
     = Return {[ "reader_method" := VStr "parquet" ]}
     ↔ parquet_like path)
  ∧ ((∃ message batch_kwargs,
        guess_reader_method_from_path path
        = Raise (BatchKwargsError message batch_kwargs))
     ↔ ¬ csv_like path ∧ ¬ parquet_like path)
  ∧ (guess_reader_method_from_path path
     = Return {[ "reader_method" := VStr "csv" ]}
     ∨ guess_reader_method_from_path path
       = Return {[ "reader_method" := VStr "parquet" ]}
     ∨ ∃ message batch_kwargs,
         guess_reader_method_from_path path
         = Raise (BatchKwargsError message batch_kwargs))
  ∧ (csv_like path
     ↔ Str.ends_with_spelling path ".csv" ∨ Str.ends_with_spelling path ".tsv")
  ∧ (parquet_like path
     ↔ Str.ends_with_spelling path ".parquet"
       ∨ Str.ends_with_spelling path ".parq"
       ∨ Str.ends_with_spelling path ".pqt").
Proof.
  assert (Hspelling :
    (csv_like path
     ↔ Str.ends_with_spelling path ".csv" ∨ Str.ends_with_spelling path ".tsv")
    ∧ (parquet_like path
       ↔ Str.ends_with_spelling path ".parquet"
         ∨ Str.ends_with_spelling path ".parq"
         ∨ Str.ends_with_spelling path ".pqt")).
  { unfold csv_like, parquet_like.
    by rewrite !StrAppFacts.ends_with_lower_spelling. }
  destruct Hspelling as [Hcsv_spelling Hpq_spelling].
  split_and!; [| | | | done | done];
    rewrite ?SparkDFDatasourceFacts.csv_like_endswith,
      ?SparkDFDatasourceFacts.parquet_like_endswith;
    clear Hcsv_spelling Hpq_spelling;
    pose proof (SparkDFDatasourceFacts.csv_parquet_disjoint (Str.lower path))
      as Hdisj;
    pose proof SparkDFDatasourceFacts.csv_reader_neq_parquet_reader as Hneq;
    unfold csv_reader, parquet_reader in Hneq;
    destruct (Str.endswith (Str.lower path) ".csv"
              || Str.endswith (Str.lower path) ".tsv") eqn:Hcsv;
    destruct (Str.endswith (Str.lower path) ".parquet"
              || Str.endswith (Str.lower path) ".parq"
              || Str.endswith (Str.lower path) ".pqt") eqn:Hpq;
    try (exfalso; by apply Hdisj);
    rewrite ?(SparkDFDatasourceFacts.guess_when_csv path Hcsv),
      ?(SparkDFDatasourceFacts.guess_when_parquet path Hcsv Hpq),
      ?(SparkDFDatasourceFacts.guess_otherwise path Hcsv Hpq);
    unfold csv_reader, parquet_reader.
  - done.
  - split; [by intros [= E] | done].
  - by split.
  - split; [by intros [= E] | done].
  - done.
  - by split.
  - split; [by intros (? & ? & ?) | by intros [? _]].
  - split; [by intros (? & ? & ?) | by intros [_ ?]].
  - split; [done | intros _; by eexists _, _].
  - by left.
  - by right; left.
  - right; right. by eexists _, _.
Qed.

End GuessReaderMethodFacts.

(** ** Facts about [_get_reader_fn] *)

Module GetReaderFnFacts.
Import SparkDFDatasource.

Section Reader.

Variables Reader ReaderFn : Type.
Variable getattr : Reader → string → option ReaderFn.
Variable format_load : Reader → string → option ReaderFn.

Abbreviation get_reader_fn := (_get_reader_fn Reader ReaderFn getattr format_load).
Abbreviation try_method := (reader_fn_of_method Reader ReaderFn getattr format_load).

(** What the method does once the reader method is known. *)
Lemma get_reader_fn_explicit (reader : Reader) (reader_method : value)
    (path : option string) :
  reader_method ≠ VNone →
  get_reader_fn reader reader_method path
  = match try_method reader reader_method with
    | Raised (AttributeError _) =>
        Raised (Exn (BatchKwargsError
          ("Unable to find reader_method " +:+ format_value reader_method
             +:+ " in spark.")
          {[ "reader_method" := reader_method ]}))
    | fn => fn
    end.
Proof.
  intros Hmethod. unfold _get_reader_fn.
  by rewrite (bool_decide_eq_false_2 _ Hmethod).
Qed.

(** What the method does when it has to guess from the path. *)
Lemma get_reader_fn_guessed (reader : Reader) (path : string) :
  get_reader_fn reader VNone (Some path)
  = match guess_reader_method_from_path path with
    | Return guessed =>
        reader_method ← getitem guessed "reader_method";
        get_reader_fn reader reader_method (Some path)
    | Raise e => Raised (Exn e)
    end.
Proof.
  unfold _get_reader_fn at 1.
  rewrite bool_decide_eq_true_2 by done.
  rewrite (bool_decide_eq_false_2 (Some path = None)) by done.
  cbn [andb].
  destruct (guess_reader_method_from_path path) as [guessed | e] eqn:Hguess;
    [| done].
  destruct (GuessReaderMethodFacts.guess_returns_csv_or_parquet
              path guessed Hguess) as [-> | ->].
  - cbn [of_result mbind outcome_bind].
    change (getitem csv_reader "reader_method") with (Returned (VStr "csv")).
    cbn [mbind outcome_bind].
    by rewrite get_reader_fn_explicit.
  - cbn [of_result mbind outcome_bind].
    change (getitem parquet_reader "reader_method")
      with (Returned (VStr "parquet")).
    cbn [mbind outcome_bind].
    by rewrite get_reader_fn_explicit.
Qed.

(** The [try] block fails with [AttributeError] only. *)
Lemma try_method_raises_only_attribute_error
    (reader : Reader) (reader_method : value) (e : exception) :
  try_method reader reader_method = Raised e →
  ∃ message, e = AttributeError message.
Proof.
  unfold reader_fn_of_method.
  repeat case_match; intros [= <-]; eauto.
Qed.

Lemma explicit_raises_only_batch_kwargs_error
    (reader : Reader) (reader_method : value) (path : option string)
    (e : exception) :
  reader_method ≠ VNone →
  get_reader_fn reader reader_method path = Raised e →
  ∃ message batch_kwargs, e = Exn (BatchKwargsError message batch_kwargs).
Proof.
  intros Hmethod. rewrite get_reader_fn_explicit by done.
  destruct (try_method reader reader_method) as [fn | e'] eqn:Htry; [done |].
  destruct (try_method_raises_only_attribute_error _ _ _ Htry) as [m ->].
  intros [= <-]. eauto.
Qed.

(** X3.  For a reader method that is [None], a boolean or a string, and a
    path that is [None] or a string, the one exception that leaves
    [_get_reader_fn] is [BatchKwargsError]: the [AttributeError] of a
    missing attribute of the reader, of a reader without [format] and of a
    reader method that is no string is caught and reported as such, and the
    guess never lacks its "reader_method" key. *)
Theorem get_reader_fn_raises_only_batch_kwargs_error
    (reader : Reader) (reader_method : value) (path : option string)
    (e : exception) :
  get_reader_fn reader reader_method path = Raised e →
  ∃ message batch_kwargs, e = Exn (BatchKwargsError message batch_kwargs).
Proof.
  destruct (decide (reader_method = VNone)) as [-> | Hmethod];
    [| by apply explicit_raises_only_batch_kwargs_error].
  destruct path as [path |]; [| intros [= <-]; eauto].
  rewrite get_reader_fn_guessed.
  destruct (guess_reader_method_from_path path) as [guessed | e'] eqn:Hguess.
  - destruct (GuessReaderMethodFacts.guess_returns_csv_or_parquet
                path guessed Hguess) as [-> | ->].
    + change (getitem csv_reader "reader_method") with (Returned (VStr "csv")).
      cbn [mbind outcome_bind].
      by apply explicit_raises_only_batch_kwargs_error.
    + change (getitem parquet_reader "reader_method")
        with (Returned (VStr "parquet")).
      cbn [mbind outcome_bind].
      by apply explicit_raises_only_batch_kwargs_error.
  - destruct (GuessReaderMethodFacts.guess_raises_only_batch_kwargs_error
                path e' Hguess) as (message & batch_kwargs & ->).
    intros [= <-]. eauto.
Qed.

(** X4.  A reader method that is given decides alone: the path is not
    looked at, whether it is absent, recognised or not. *)
Theorem get_reader_fn_explicit_method_ignores_path
    (reader : Reader) (reader_method : value) (path path' : option string) :
  reader_method ≠ VNone →
  get_reader_fn reader reader_method path
  = get_reader_fn reader reader_method path'.
Proof.
  intros Hmethod. by rewrite !get_reader_fn_explicit.
Qed.

(** X5.  The reader methods "delta" and "avro", in any spelling of upper
    and lower case, are served by [reader.format(...).load] with the
    lower-case name and by no attribute of the reader of that name: the
    result is that function, or, where evaluating the expression raises
    [AttributeError], the [BatchKwargsError] that names the reader method
    as it was given. *)
Theorem get_reader_fn_delta_avro
    (reader : Reader) (name : string) (path : option string) :
  Str.lower name = "delta" ∨ Str.lower name = "avro" →
  get_reader_fn reader (VStr name) path
  = match format_load reader (Str.lower name) with
    | Some fn => Returned fn
    | None =>
        Raised (Exn (BatchKwargsError
          ("Unable to find reader_method " +:+ name +:+ " in spark.")
          {[ "reader_method" := VStr name ]}))
    end.
Proof.
  intros Hname. rewrite get_reader_fn_explicit by done.
  unfold reader_fn_of_method.
  rewrite bool_decide_eq_true_2 by (destruct Hname as [-> | ->]; set_solver).
  by destruct (format_load reader (Str.lower name)).
Qed.


(** X7.  A reader method given as a string is served exactly in two
    cases: it is "delta" or "avro" in some spelling of upper and lower case
    and the reader provides [format(...).load] for the lower-case name; or
    it is neither and names an attribute of the reader in the spelling
    given. *)
Theorem get_reader_fn_explicit_string_returns
    (reader : Reader) (name : string) (path : option string) :
  (∃ fn, get_reader_fn reader (VStr name) path = Returned fn)
  ↔ (Str.lower name ∈ ["delta"; "avro"]
     ∧ is_Some (format_load reader (Str.lower name)))
    ∨ ((Str.lower name ∉ ["delta"; "avro"]) ∧ is_Some (getattr reader name)).
Proof.
  rewrite get_reader_fn_explicit by done. unfold reader_fn_of_method.
  case_bool_decide as Hformat.
  - destruct (format_load reader (Str.lower name)) as [fn |].
    + split; [by left | intros _; by eexists].
    + split; [by intros [fn ?] | by intros [[_ [? ?]] | [? _]]].
  - destruct (getattr reader name) as [fn |].
    + split; [by right | intros _; by eexists].
    + split; [by intros [fn ?] | by intros [[? _] | [_ [? ?]]]].
Qed.

End Reader.

(** The examples below use a reader with the attributes [csv], [parquet]
    and [json] and with [format]; it does not have [orc]. *)
Lemma get_reader_fn_raises_only_batch_kwargs_error_witness :
  ∃ message batch_kwargs,
    _get_reader_fn unit string
      (λ _ name,
         if bool_decide (name ∈ ["csv"; "parquet"; "json"])
         then Some name else None)
      (λ _ format, Some ("format:" +:+ format))
      tt (VStr "orc") (Some "trips.csv")
    = Raised (Exn (BatchKwargsError message batch_kwargs)).
Proof.
  assert (Hraised :
    _get_reader_fn unit string
      (λ _ name,
         if bool_decide (name ∈ ["csv"; "parquet"; "json"])
         then Some name else None)
      (λ _ format, Some ("format:" +:+ format))
      tt (VStr "orc") (Some "trips.csv")
    = Raised (Exn (BatchKwargsError
                     "Unable to find reader_method orc in spark."
                     {[ "reader_method" := VStr "orc" ]})))
    by reflexivity.
  destruct (get_reader_fn_raises_only_batch_kwargs_error _ _ _ _ _ _ _ _ Hraised)
    as (message & batch_kwargs & Hclass).
  exists message, batch_kwargs. rewrite Hraised. by f_equal.
Defined.

Lemma get_reader_fn_explicit_method_ignores_path_witness :
  _get_reader_fn unit string
    (λ _ name,
       if bool_decide (name ∈ ["csv"; "parquet"; "json"])
       then Some name else None)
    (λ _ format, Some ("format:" +:+ format))
    tt (VStr "json") (Some "trips.csv")
  = _get_reader_fn unit string
      (λ _ name,
         if bool_decide (name ∈ ["csv"; "parquet"; "json"])
         then Some name else None)
      (λ _ format, Some ("format:" +:+ format))
      tt (VStr "json") None.
Proof.
  apply (get_reader_fn_explicit_method_ignores_path unit string). done.
Defined.

Lemma get_reader_fn_delta_avro_witness :
  _get_reader_fn unit string
    (λ _ name, if bool_decide (name = "Delta") then Some name else None)
    (λ _ format, Some ("format:" +:+ format))
    tt (VStr "Delta") None
  = Returned "format:delta".
Proof.
  apply (get_reader_fn_delta_avro unit string
           (λ _ name, if bool_decide (name = "Delta") then Some name else None)
           (λ _ format, Some ("format:" +:+ format)) tt "Delta" None).
  by left.
Defined.


End GetReaderFnFacts.

(** ** Facts about [build_configuration] and [process_batch_parameters] *)

Module BatchKwargsFacts.
Import SparkDFDatasource.

Lemma truthy_dict (d : gmap string py) : truthy (PyDict d) = true ↔ d ≠ ∅.
Proof.
  unfold truthy. rewrite negb_true_iff, bool_decide_eq_false.
  by rewrite map_size_empty_iff.
Qed.

Lemma falsy_dict (d : gmap string py) : truthy (PyDict d) = false ↔ d = ∅.
Proof.
  unfold truthy. rewrite negb_false_iff, bool_decide_eq_true.
  apply map_size_empty_iff.
Qed.

(** [d or {}] is [d], whether [d] is empty or not. *)
Lemma dict_or_empty (d : gmap string py) :
  (if truthy (PyDict d) then d else ∅) = d.
Proof.
  destruct (truthy (PyDict d)) eqn:H; [done |].
  by apply falsy_dict in H.
Qed.

(** X8.  The configuration always has the keys "spark_config" and
    "persist": "persist" is the flag given, and "spark_config" is the
    dictionary given, or an empty dictionary when [None] was given.  No
    other key is added to the keyword arguments. *)
Theorem build_configuration_spark_config_and_persist
    (spark_config : option (gmap string py)) (persist : bool)
    (kwargs : gmap string py) :
  build_configuration spark_config persist kwargs !! "persist"
  = Some (PyBool persist)
  ∧ build_configuration spark_config persist kwargs !! "spark_config"
    = Some (PyDict (default ∅ spark_config))
  ∧ dom (build_configuration spark_config persist kwargs)
    = {[ "spark_config"; "persist" ]} ∪ dom kwargs.
Proof.
  unfold build_configuration, dict_update. rewrite dict_or_empty.
  assert (Hconfig :
    match spark_config with
    | Some d => if truthy (PyDict d) then d else ∅
    | None => ∅
    end = default ∅ spark_config).
  { destruct spark_config as [d |]; [apply dict_or_empty | done]. }
  rewrite Hconfig. split_and!.
  - by apply lookup_union_Some_l.
  - by apply lookup_union_Some_l.
  - rewrite dom_union_L, dom_insert_L, dom_singleton_L. set_solver.
Qed.

(** X9.  Every keyword argument other than "spark_config" and "persist" is
    in the configuration with the value given, and a key that was not given
    is not in it. *)
Theorem build_configuration_keeps_other_keywords
    (spark_config : option (gmap string py)) (persist : bool)
    (kwargs : gmap string py) (key : string) :
  key ≠ "spark_config" → key ≠ "persist" →
  build_configuration spark_config persist kwargs !! key = kwargs !! key.
Proof.
  intros Hconfig Hpersist.
  unfold build_configuration, dict_update. rewrite dict_or_empty.
  apply lookup_union_r.
  by rewrite lookup_insert_ne, lookup_singleton_ne.
Qed.

Lemma build_configuration_keeps_other_keywords_witness :
  build_configuration (Some {[ "spark.app.name" := PyStr "ge" ]}) true
    {[ "batch_kwargs_generators" := PyDict ∅; "class_name" := PyStr "SparkDFDatasource" ]}
    !! "batch_kwargs_generators"
  = Some (PyDict ∅).
Proof.
  rewrite build_configuration_keeps_other_keywords by done.
  reflexivity.
Defined.

Section Super.

Variable super_process_batch_parameters : py → py → gmap string py.

Abbreviation process :=
  (process_batch_parameters super_process_batch_parameters).
Abbreviation super := super_process_batch_parameters.

(** Without reader options, or with an empty dictionary of them, only the
    reader method is stored. *)
Lemma process_without_options (reader_method : py)
    (reader_options : option (gmap string py)) (limit dataset_options : py) :
  reader_options = None ∨ reader_options = Some ∅ →
  process reader_method reader_options limit dataset_options
  = Returned
      match reader_method with
      | PyNone => super limit dataset_options
      | _ => <[ "reader_method" := reader_method ]> (super limit dataset_options)
      end.
Proof.
  intros [-> | ->]; unfold process_batch_parameters; by destruct reader_method.
Qed.

(** Reader options meet a dictionary that the base class has put there. *)
Lemma process_updates_dict (reader_method : py)
    (options d : gmap string py) (limit dataset_options : py) :
  options ≠ ∅ →
  super limit dataset_options !! "reader_options" = Some (PyDict d) →
  process reader_method (Some options) limit dataset_options
  = Returned
      match reader_method with
      | PyNone =>
          <[ "reader_options" := PyDict (options ∪ d) ]>
            (super limit dataset_options)
      | _ =>
          <[ "reader_method" := reader_method ]>
            (<[ "reader_options" := PyDict (options ∪ d) ]>
               (super limit dataset_options))
      end.
Proof.
  intros Hoptions%truthy_dict Hcurrent. unfold process_batch_parameters.
  cbv zeta.
  rewrite Hoptions, Hcurrent. cbn [from_option id].
  destruct (truthy (PyDict d)) eqn:Hd; cbn [negb].
  - unfold getitem. rewrite Hcurrent. cbn [mbind outcome_bind].
    by destruct reader_method.
  - apply falsy_dict in Hd as ->.
    unfold getitem. rewrite lookup_insert_eq. cbn [mbind outcome_bind].
    unfold dict_update. rewrite insert_insert_eq.
    by destruct reader_method.
Qed.

(** Reader options meet no entry, or one that is not true in a condition. *)
Lemma process_replaces_falsy (reader_method : py)
    (options : gmap string py) (limit dataset_options : py) :
  options ≠ ∅ →
  truthy (default PyNone (super limit dataset_options !! "reader_options"))
  = false →
  process reader_method (Some options) limit dataset_options
  = Returned
      match reader_method with
      | PyNone =>
          <[ "reader_options" := PyDict options ]> (super limit dataset_options)
      | _ =>
          <[ "reader_method" := reader_method ]>
            (<[ "reader_options" := PyDict options ]>
               (super limit dataset_options))
      end.
Proof.
  intros Hoptions%truthy_dict Hcurrent. unfold process_batch_parameters.
  cbv zeta.
  rewrite Hoptions, Hcurrent. cbn [negb].
  unfold getitem. rewrite lookup_insert_eq. cbn [mbind outcome_bind].
  unfold dict_update. rewrite insert_insert_eq, (right_id_L ∅ (∪)).
  by destruct reader_method.
Qed.

(** Reader options meet an entry that is true in a condition and is no
    dictionary. *)
Lemma process_fails_on_non_dict (reader_method : py)
    (options : gmap string py) (limit dataset_options current : py) :
  options ≠ ∅ →
  super limit dataset_options !! "reader_options" = Some current →
  truthy current = true →
  (∀ d, current ≠ PyDict d) →
  process reader_method (Some options) limit dataset_options
  = Raised (AttributeError
              ("'" +:+ type_name current
                 +:+ "' object has no attribute 'update'")).
Proof.
  intros Hoptions%truthy_dict Hcurrent Htruthy Hdict.
  unfold process_batch_parameters. cbv zeta.
  rewrite Hoptions, Hcurrent. cbn [from_option id]. rewrite Htruthy.
  cbn [negb].
  unfold getitem. rewrite Hcurrent. cbn [mbind outcome_bind].
  destruct current; try done. by destruct (Hdict d).
Qed.

(** X10.  Reader options given for one batch are merged into the reader
    options that the base class has configured: an option given for the
    batch wins, and a configured option that is not given again stays. *)
Theorem process_batch_parameters_merges_reader_options
    (reader_method : py) (options d : gmap string py)
    (limit dataset_options : py) :
  options ≠ ∅ →
  super limit dataset_options !! "reader_options" = Some (PyDict d) →
  ∃ batch_kwargs merged,
    process reader_method (Some options) limit dataset_options
    = Returned batch_kwargs
    ∧ batch_kwargs !! "reader_options" = Some (PyDict merged)
    ∧ (∀ key v, options !! key = Some v → merged !! key = Some v)
    ∧ (∀ key, options !! key = None → merged !! key = d !! key).
Proof.
  intros Hoptions Hcurrent.
  eexists _, (options ∪ d).
  split; [by apply process_updates_dict |].
  split_and!.
  - destruct reader_method;
      by rewrite ?(lookup_insert_ne _ "reader_method") by done;
         rewrite lookup_insert_eq.
  - intros key v Hkey. by apply lookup_union_Some_l.
  - intros key Hkey. by apply lookup_union_r.
Qed.

(** X11.  Where the base class has configured no reader options, or a
    value that is not true in a condition ([None], an empty dictionary),
    the reader options of the batch are those given. *)
Theorem process_batch_parameters_first_reader_options
    (reader_method : py) (options : gmap string py)
    (limit dataset_options : py) :
  options ≠ ∅ →
  truthy (default PyNone (super limit dataset_options !! "reader_options"))
  = false →
  ∃ batch_kwargs,
    process reader_method (Some options) limit dataset_options
    = Returned batch_kwargs
    ∧ batch_kwargs !! "reader_options" = Some (PyDict options).
Proof.
  intros Hoptions Hcurrent.
  eexists. split; [by apply process_replaces_falsy |].
  destruct reader_method;
    by rewrite ?(lookup_insert_ne _ "reader_method") by done;
       rewrite lookup_insert_eq.
Qed.

(** Every call is in one of the four cases above. *)
Lemma process_cases (reader_options : option (gmap string py))
    (limit dataset_options : py) :
  (reader_options = None ∨ reader_options = Some ∅)
  ∨ (∃ options, reader_options = Some options ∧ options ≠ ∅
       ∧ ((∃ d, super limit dataset_options !! "reader_options"
                = Some (PyDict d))
          ∨ truthy (default PyNone
                      (super limit dataset_options !! "reader_options"))
            = false
          ∨ (∃ current,
               super limit dataset_options !! "reader_options" = Some current
               ∧ truthy current = true ∧ ∀ d, current ≠ PyDict d))).
Proof.
  destruct reader_options as [options |]; [| by left; left].
  destruct (decide (options = ∅)) as [-> | Hoptions]; [by left; right |].
  right. exists options. split_and!; [done .. |].
  destruct (super limit dataset_options !! "reader_options")
    as [current |] eqn:Hcurrent; [| by right; left].
  destruct (truthy current) eqn:Htruthy; [| by right; left].
  destruct current as [| b | n | s | d]; [done | .. | left; by exists d];
    right; right; eexists; by split_and!.
Qed.

(** X12.  A call that returns has changed at most two keys of what the
    base class returned: "reader_method", which is the reader method given
    if one is given and is untouched otherwise, and "reader_options", which
    is untouched if no reader options, or empty ones, are given. *)
Theorem process_batch_parameters_frame
    (reader_method : py) (reader_options : option (gmap string py))
    (limit dataset_options : py) (batch_kwargs : gmap string py) :
  process reader_method reader_options limit dataset_options
  = Returned batch_kwargs →
  (reader_method ≠ PyNone → batch_kwargs !! "reader_method" = Some reader_method)
  ∧ (reader_method = PyNone →
     batch_kwargs !! "reader_method"
     = super limit dataset_options !! "reader_method")
  ∧ (reader_options = None ∨ reader_options = Some ∅ →
     batch_kwargs !! "reader_options"
     = super limit dataset_options !! "reader_options")
  ∧ (∀ key, key ≠ "reader_options" → key ≠ "reader_method" →
     batch_kwargs !! key = super limit dataset_options !! key).
Proof.
  destruct (process_cases reader_options limit dataset_options)
    as [Hnone | (options & -> & Hoptions & [[d Hd] | [Hfalsy | Hbad]])].
  - rewrite process_without_options by done. intros [= <-].
    split_and!.
    + intros Hmethod. destruct reader_method; by rewrite ?lookup_insert_eq.
    + by intros ->.
    + intros _. destruct reader_method; by rewrite ?lookup_insert_ne.
    + intros key _ Hkey. destruct reader_method; by rewrite ?lookup_insert_ne.
  - rewrite (process_updates_dict _ _ d) by done. intros [= <-].
    split_and!.
    + intros Hmethod. destruct reader_method; by rewrite ?lookup_insert_eq.
    + intros ->. by rewrite lookup_insert_ne.
    + by intros [[=] | [= ->]].
    + intros key Hkey Hkey'. destruct reader_method; by rewrite !lookup_insert_ne.
  - rewrite process_replaces_falsy by done. intros [= <-].
    split_and!.
    + intros Hmethod. destruct reader_method; by rewrite ?lookup_insert_eq.
    + intros ->. by rewrite lookup_insert_ne.
    + by intros [[=] | [= ->]].
    + intros key Hkey Hkey'. destruct reader_method; by rewrite !lookup_insert_ne.
  - destruct Hbad as (current & Hcurrent & Htruthy & Hdict).
    by rewrite (process_fails_on_non_dict _ _ _ _ current).
Qed.

(** X13.  The call fails exactly when reader options are given, and are
    not empty, while the base class has put under "reader_options" a value
    that is true in a condition and is no dictionary; it then fails with the
    [AttributeError] of that value's missing [update]. *)
Theorem process_batch_parameters_raises
    (reader_method : py) (reader_options : option (gmap string py))
    (limit dataset_options : py) (e : exception) :
  process reader_method reader_options limit dataset_options = Raised e
  ↔ ∃ options current,
      reader_options = Some options ∧ options ≠ ∅
      ∧ super limit dataset_options !! "reader_options" = Some current
      ∧ truthy current = true
      ∧ (∀ d, current ≠ PyDict d)
      ∧ e = AttributeError
              ("'" +:+ type_name current
                 +:+ "' object has no attribute 'update'").
Proof.
  split.
  - destruct (process_cases reader_options limit dataset_options)
      as [Hnone | (options & -> & Hoptions & [[d Hd] | [Hfalsy | Hbad]])].
    + by rewrite process_without_options.
    + by rewrite (process_updates_dict _ _ d).
    + by rewrite process_replaces_falsy.
    + destruct Hbad as (current & Hcurrent & Htruthy & Hdict).
      rewrite (process_fails_on_non_dict _ _ _ _ current) by done.
      intros [= <-]. by exists options, current.
  - intros (options & current & -> & Hoptions & Hcurrent & Htruthy & Hdict & ->).
    by apply process_fails_on_non_dict.
Qed.

End Super.

(** In the examples below the base class returns the limit and, in the
    first and the third, configured reader options. *)
Lemma process_batch_parameters_merges_reader_options_witness :
  ∃ batch_kwargs merged,
    process_batch_parameters
      (λ limit _,
         {[ "limit" := limit;
            "reader_options" :=
              PyDict {[ "header" := PyBool true; "sep" := PyStr "," ]} ]})
      (PyStr "csv") (Some {[ "sep" := PyStr "|" ]}) (PyInt 10) PyNone
    = Returned batch_kwargs
    ∧ batch_kwargs !! "reader_options" = Some (PyDict merged)
    ∧ merged !! "sep" = Some (PyStr "|")
    ∧ merged !! "header" = Some (PyBool true).
Proof.
  destruct (process_batch_parameters_merges_reader_options
              (λ limit _,
                 {[ "limit" := limit;
                    "reader_options" :=
                      PyDict {[ "header" := PyBool true; "sep" := PyStr "," ]} ]})
              (PyStr "csv") {[ "sep" := PyStr "|" ]}
              {[ "header" := PyBool true; "sep" := PyStr "," ]}
              (PyInt 10) PyNone)
    as (batch_kwargs & merged & Hreturned & Hoptions & Hgiven & Hkept).
  - apply insert_non_empty.
  - reflexivity.
  - exists batch_kwargs, merged. split_and!; [done | done | |].
    + by apply Hgiven.
    + by rewrite Hkept.
Defined.

Lemma process_batch_parameters_first_reader_options_witness :
  ∃ batch_kwargs,
    process_batch_parameters (λ limit _, {[ "limit" := limit ]})
      PyNone (Some {[ "header" := PyBool true ]}) (PyInt 10) PyNone
    = Returned batch_kwargs
    ∧ batch_kwargs !! "reader_options"
      = Some (PyDict {[ "header" := PyBool true ]}).
Proof.
  apply (process_batch_parameters_first_reader_options
           (λ limit _, {[ "limit" := limit ]})).
  - apply insert_non_empty.
  - reflexivity.
Defined.

Lemma process_batch_parameters_frame_witness :
  process_batch_parameters
    (λ limit _,
       {[ "limit" := limit;
          "reader_options" := PyDict {[ "header" := PyBool true ]} ]})
    (PyStr "csv") (Some {[ "sep" := PyStr "|" ]}) (PyInt 10) PyNone
  = Returned
      {[ "limit" := PyInt 10;
         "reader_method" := PyStr "csv";
         "reader_options" :=
           PyDict {[ "header" := PyBool true; "sep" := PyStr "|" ]} ]}
  ∧ ({[ "limit" := PyInt 10;
        "reader_method" := PyStr "csv";
        "reader_options" :=
          PyDict {[ "header" := PyBool true; "sep" := PyStr "|" ]} ]}
       : gmap string py) !! "limit"
    = Some (PyInt 10).
Proof.
  assert (Hreturned :
    process_batch_parameters
      (λ limit _,
         {[ "limit" := limit;
            "reader_options" := PyDict {[ "header" := PyBool true ]} ]})
      (PyStr "csv") (Some {[ "sep" := PyStr "|" ]}) (PyInt 10) PyNone
    = Returned
        {[ "limit" := PyInt 10;
           "reader_method" := PyStr "csv";
           "reader_options" :=
             PyDict {[ "header" := PyBool true; "sep" := PyStr "|" ]} ]})
    by reflexivity.
  split; [exact Hreturned |].
  destruct (process_batch_parameters_frame _ _ _ _ _ _ Hreturned)
    as (_ & _ & _ & Hframe).
  by rewrite Hframe.
Defined.

End BatchKwargsFacts.
